(** * Socket user gateway (src/socket.io/user.js)

    A shallow embedding of the socket.io user handlers of NodeBB.  Every
    handler of the JavaScript module is an [async function (socket, payload)]
    which validates its payload, possibly checks the session, and then calls
    into the service layer ([user], [api], [events], [db], ...).

    The service layer is not part of the module: it is an interface
    ([Services]) over an abstract world.  A handler is a computation in a
    small monad that threads the world, records every call that leaves the
    module in a chronological trace, and either returns a JavaScript value or
    throws. *)

From Stdlib Require Import ZArith String Ascii List Bool Lia.
From Stdlib Require Import DecimalString.
From Stdlib Require DecimalFacts DecimalPos DecimalN DecimalZ.
Import ListNotations.

Set Warnings "-register-all".

Local Open Scope string_scope.
Local Open Scope list_scope.
Local Open Scope Z_scope.

Infix "+s+" := String.append (at level 60, right associativity).

(** ** JavaScript values *)

(** The values that cross the gateway: payloads arrive as JSON, services
    answer with JSON-like data.  Numbers are restricted to integers (uids,
    counts, timestamps, configuration switches). *)
Inductive value : Type :=
| JUndefined
| JNull
| JBool (b : bool)
| JNum (n : Z)
| JStr (s : string)
| JObj (props : list (string * value)).

(** What [throw] carries.  [Error] is [new Error(message)]; [TypeError] is
    what the engine raises on a property access through [undefined] or
    [null] and, the module being in strict mode, on a property assignment
    to anything that is not an object. *)
Inductive exn : Type :=
| Error (msg : string)
| TypeError (msg : string).

Definition message (e : exn) : string :=
  match e with
  | Error m => m
  | TypeError m => m
  end.

Inductive outcome (A : Type) : Type :=
| Return (a : A)
| Throw (e : exn).
Arguments Return {A} a.
Arguments Throw {A} e.

(** ToBoolean. *)
Definition truthy (v : value) : bool :=
  match v with
  | JUndefined | JNull => false
  | JBool b => b
  | JNum n => negb (n =? 0)
  | JStr s => negb (String.eqb s "")
  | JObj _ => true
  end.

(** Decimal rendering of an integer, as Number-to-String does. *)
Definition dec (n : Z) : string := NilZero.string_of_int (Z.to_int n).

(** ToString, as applied by [+] when one operand is a string.  It is
    JavaScript's on [undefined], [null], booleans, strings and the integers
    a number holds exactly (below 2^53 in magnitude), which are printed with
    all their digits; beyond that JavaScript rounds and, from 1e21 on,
    switches to exponent notation.  An object is rendered by the default
    [Object.prototype.toString], which is JavaScript's only for an object
    that has no [toString] or [valueOf] of its own.  The handlers render
    the uid of the session and, in [gdpr.check] for an administrator, the
    uid of the payload. *)
Definition to_string (v : value) : string :=
  match v with
  | JUndefined => "undefined"
  | JNull => "null"
  | JBool true => "true"
  | JBool false => "false"
  | JNum n => dec n
  | JStr s => s
  | JObj _ => "[object Object]"
  end.

Fixpoint lookup (k : string) (props : list (string * value)) : value :=
  match props with
  | [] => JUndefined
  | (k', v) :: rest => if String.eqb k k' then v else lookup k rest
  end.

(** Assignment keeps the position of an existing key and appends a new one,
    as property order in a JavaScript object does. *)
Fixpoint assign (k : string) (v : value) (props : list (string * value))
  : list (string * value) :=
  match props with
  | [] => [(k, v)]
  | (k', v') :: rest =>
      if String.eqb k k' then (k, v) :: rest else (k', v') :: assign k v rest
  end.

(** [o.k] *)
Definition get_prop (o : value) (k : string) : outcome value :=
  match o with
  | JUndefined | JNull =>
      Throw (TypeError ("Cannot read properties of " +s+ to_string o))
  | JObj props => Return (lookup k props)
  | _ => Return JUndefined
  end.

(** [o.k = v] in strict mode; the result is the object after the write. *)
Definition set_prop (o : value) (k : string) (v : value) : outcome value :=
  match o with
  | JObj props => Return (JObj (assign k v props))
  | JUndefined | JNull =>
      Throw (TypeError ("Cannot set properties of " +s+ to_string o))
  | _ => Throw (TypeError ("Cannot create property '" +s+ k +s+ "'"))
  end.

Definition is_object (v : value) : bool :=
  match v with
  | JObj _ => true
  | _ => false
  end.

(** [Array.prototype.includes] on an array of strings. *)
Definition includes (l : list string) (s : string) : bool :=
  existsb (String.eqb s) l.

(** ** Sessions, services and the trace *)

(** The session attached to a connection; [uid = 0] is a guest. *)
Record socket : Type := { uid : Z; ip : string }.

Definition socket_val (s : socket) : value :=
  JObj [("uid", JNum (uid s)); ("ip", JStr (ip s))].

(** The functions of other modules that the handlers call. *)
Inductive service : Type :=
| meta_userOrGroupExists
| api_users_deleteAccount
| api_users_follow
| api_users_unfollow
| api_users_updateSettings
| api_users_updateSetting
| user_email_exists
| user_email_sendValidationEmail
| user_reset_send
| user_reset_commit
| user_getUserField
| user_setUserField
| user_isFollowing
| user_isAdministrator
| user_isModeratorOfAnyCategory
| user_appendModerationNote
| user_deleteUpload
| user_notifications_getUnreadCount
| events_log
| db_getObjectField
| plugins_hooks_fire
| emailer_send
| topics_getTotalUnread
| topics_getUnreadTids
| messaging_getUnreadCount
| userController_getUserDataByField
| privileges_users_canEdit.

Definition service_eqb (f g : service) : bool :=
  match f, g with
  | meta_userOrGroupExists, meta_userOrGroupExists
  | api_users_deleteAccount, api_users_deleteAccount
  | api_users_follow, api_users_follow
  | api_users_unfollow, api_users_unfollow
  | api_users_updateSettings, api_users_updateSettings
  | api_users_updateSetting, api_users_updateSetting
  | user_email_exists, user_email_exists
  | user_email_sendValidationEmail, user_email_sendValidationEmail
  | user_reset_send, user_reset_send
  | user_reset_commit, user_reset_commit
  | user_getUserField, user_getUserField
  | user_setUserField, user_setUserField
  | user_isFollowing, user_isFollowing
  | user_isAdministrator, user_isAdministrator
  | user_isModeratorOfAnyCategory, user_isModeratorOfAnyCategory
  | user_appendModerationNote, user_appendModerationNote
  | user_deleteUpload, user_deleteUpload
  | user_notifications_getUnreadCount, user_notifications_getUnreadCount
  | events_log, events_log
  | db_getObjectField, db_getObjectField
  | plugins_hooks_fire, plugins_hooks_fire
  | emailer_send, emailer_send
  | topics_getTotalUnread, topics_getTotalUnread
  | topics_getUnreadTids, topics_getUnreadTids
  | messaging_getUnreadCount, messaging_getUnreadCount
  | userController_getUserDataByField, userController_getUserDataByField
  | privileges_users_canEdit, privileges_users_canEdit => true
  | _, _ => false
  end.

(** What leaves the module, in the order it happens. *)
Inductive event : Type :=
| Call (f : service) (args : list value)
| Sleep (ms : Z)
| Deprecated (s : socket) (replacement : string).

Definition trace := list event.

Definition is_sleep (e : event) : bool :=
  match e with
  | Sleep _ => true
  | _ => false
  end.

(** The calls to one service in a trace, with their arguments. *)
Definition calls_to (f : service) (t : trace) : list (list value) :=
  flat_map (fun e => match e with
                     | Call g args => if service_eqb f g then [args] else []
                     | _ => []
                     end) t.

(** The local calendar fields read off a [Date] object. *)
Record Date : Type := { getFullYear : Z; getMonth : Z; getDate : Z }.

(** The world outside the module.  A service call takes the world to a new
    one and settles either way; the timer lets time pass; the configuration
    object and the clock are read without a call. *)
Class Services (W : Type) : Type := {
  svc : service -> list value -> W -> outcome value * W;
  elapse : Z -> W -> W;
  meta_config : W -> list (string * value);
  Date_now : W -> Z;
  new_Date : W -> Date
}.

(** ** The handler monad *)

(** A computation runs from a world and the trace so far, and ends with a
    returned value or a thrown error, the world it leaves and the trace
    extended by what it did. *)
Definition M (W A : Type) : Type := W * trace -> outcome A * (W * trace).

Section Monad.
Context {W : Type} `{Services W}.

Definition ret {A : Type} (a : A) : M W A := fun s => (Return a, s).

Definition throw {A : Type} (e : exn) : M W A := fun s => (Throw e, s).

Definition bind {A B : Type} (c : M W A) (k : A -> M W B) : M W B :=
  fun s =>
    match c s with
    | (Return a, s') => k a s'
    | (Throw e, s') => (Throw e, s')
    end.

(** [try { body } catch (err) { handler err }] *)
Definition try_catch {A : Type} (body : M W A) (handler : exn -> M W A)
  : M W A :=
  fun s =>
    match body s with
    | (Return a, s') => (Return a, s')
    | (Throw e, s') => handler e s'
    end.

(** [await p] on a promise that has settled, and the completion of a
    property access or assignment. *)
Definition await {A : Type} (p : outcome A) : M W A := fun s => (p, s).

(** Calling a service without awaiting it: the call is made and recorded,
    and the promise it returns is kept.  All the effects of a call are
    taken at the point of the call. *)
Definition start (f : service) (args : list value) : M W (outcome value) :=
  fun s =>
    let (r, w') := svc f args (fst s) in
    (Return r, (w', snd s ++ [Call f args])).

(** [await f(args)] *)
Definition call (f : service) (args : list value) : M W value :=
  bind (start f args) await.

(** [await sleep(ms)], with [sleep = util.promisify(setTimeout)]. *)
Definition sleep (ms : Z) : M W unit :=
  fun s => (Return tt, (elapse ms (fst s), snd s ++ [Sleep ms])).

(** Modelled from the spec: [sockets.warnDeprecated], of socket.io/index.js,
    is not among the sources.  The deprecation notifier records that a
    legacy procedure was invoked and names its replacement; it never
    blocks or alters the call. *)
Definition warnDeprecated (sock : socket) (replacement : string) : M W unit :=
  fun s => (Return tt, (fst s, snd s ++ [Deprecated sock replacement])).

(** [meta.config[key]] *)
Definition config (key : string) : M W value :=
  fun s => (Return (lookup key (meta_config (fst s))), s).

(** [Date.now()] *)
Definition now_ms : M W Z := fun s => (Return (Date_now (fst s)), s).

(** [new Date()] *)
Definition now_date : M W Date := fun s => (Return (new_Date (fst s)), s).
End Monad.

Declare Scope js_scope.
Delimit Scope js_scope with js.
Notation "x <- c ;; k" := (bind c (fun x => k))
  (at level 100, c at next level, right associativity) : js_scope.
Notation "c ;; k" := (bind c (fun _ => k))
  (at level 100, right associativity) : js_scope.
Local Open Scope js_scope.

(** [Promise.all]: the values in order when every promise fulfils.  When
    several reject, JavaScript takes the one that rejects first in time;
    the model takes the one that comes first in the array. *)
Fixpoint Promise_all (ps : list (outcome value)) : outcome (list value) :=
  match ps with
  | [] => Return []
  | Throw e :: _ => Throw e
  | Return v :: rest =>
      match Promise_all rest with
      | Return vs => Return (v :: vs)
      | Throw e => Throw e
      end
  end.

(** Modelled from the spec: [utils.promiseParallel], of utils.js, is not
    among the sources.  It is the join of a fan-out: it waits for all the
    promises of an object and merges their values into one object under the
    same keys. *)
Definition promiseParallel (obj : list (string * outcome value))
  : outcome value :=
  match Promise_all (map snd obj) with
  | Return vs => Return (JObj (combine (map fst obj) vs))
  | Throw e => Throw e
  end.

(** [!v] *)
Definition not_ (v : value) : bool := negb (truthy v).

(** The error messages of the module. *)
Definition InvalidData : exn := Error "[[error:invalid-data]]".
Definition NoPrivileges : exn := Error "[[error:no-privileges]]".
Definition EmailConfirmationsDisabled : exn :=
  Error "[[error:email-confirmations-are-disabled]]".

(** The string built in [reset.commit]:
    [now.getFullYear() + '/' + (now.getMonth() + 1) + '/' + now.getDate()] *)
Definition parsedDate (now : Date) : string :=
  dec (getFullYear now) +s+ "/" +s+ dec (getMonth now + 1) +s+ "/"
    +s+ dec (getDate now).

(** ** The handlers *)

Module SocketUser.

Section Accounts.
Context {W : Type} `{Services W}.

Definition exists_ (sock : socket) (data : value) : M W value :=
  warnDeprecated sock
    "HEAD /api/v3/users/bySlug/:userslug *AND* HEAD /api/v3/groups/:slug" ;;
  if not_ data then throw InvalidData else
  username <- await (get_prop data "username") ;;
  if not_ username then throw InvalidData else
  call meta_userOrGroupExists [username].

Definition deleteAccount (sock : socket) (data : value) : M W value :=
  warnDeprecated sock "DELETE /api/v3/users/:uid/account" ;;
  data <- await (set_prop data "uid" (JNum (uid sock))) ;;
  call api_users_deleteAccount [socket_val sock; data] ;;
  ret JUndefined.

Definition emailExists (sock : socket) (data : value) : M W value :=
  if not_ data then throw InvalidData else
  email <- await (get_prop data "email") ;;
  if not_ email then throw InvalidData else
  call user_email_exists [email].

Definition emailConfirm (sock : socket) : M W value :=
  if not_ (JNum (uid sock)) then throw NoPrivileges else
  requireEmailConfirmation <- config "requireEmailConfirmation" ;;
  if not_ requireEmailConfirmation then throw EmailConfirmationsDisabled else
  call user_email_sendValidationEmail [JNum (uid sock)].

End Accounts.

(** Password reset *)
Module reset.
Section Reset.
Context {W : Type} `{Services W}.

(** The closure [logEvent] of [reset.send]. *)
Definition logEvent (sock : socket) (email : value) (text : string)
  : M W value :=
  call events_log
    [JObj [("type", JStr "password-reset");
           ("text", JStr text);
           ("ip", JStr (ip sock));
           ("uid", JNum (uid sock));
           ("email", email)]].

Definition internalErrors : list string :=
  ["[[error:invalid-email]]"; "[[error:reset-rate-limited]]"].

Definition send (sock : socket) (email : value) : M W value :=
  if not_ email then throw InvalidData else
  disableEdit <- config "password:disableEdit" ;;
  if truthy disableEdit then throw NoPrivileges else
  try_catch
    (call user_reset_send [email] ;;
     logEvent sock email "[[success:success]]" ;;
     sleep 2500 ;;
     ret JUndefined)
    (fun err =>
       logEvent sock email (message err) ;;
       if negb (includes internalErrors (message err)) then throw err
       else ret JUndefined).

Definition commit (sock : socket) (data : value) : M W value :=
  if not_ data then throw InvalidData else
  code <- await (get_prop data "code") ;;
  if not_ code then throw InvalidData else
  password <- await (get_prop data "password") ;;
  if not_ password then throw InvalidData else
  p1 <- start db_getObjectField [JStr "reset:uid"; code] ;;
  p2 <- start user_reset_commit [code; password] ;;
  p3 <- start plugins_hooks_fire
          [JStr "action:password.reset"; JObj [("uid", JNum (uid sock))]] ;;
  all <- await (Promise_all [p1; p2; p3]) ;;
  let uid_ := nth 0 all JUndefined in
  call events_log
    [JObj [("type", JStr "password-reset");
           ("uid", uid_);
           ("ip", JStr (ip sock))]] ;;
  username <- call user_getUserField [uid_; JStr "username"] ;;
  now <- now_date ;;
  start emailer_send
    [JStr "reset_notify"; uid_;
     JObj [("username", username);
           ("date", JStr (parsedDate now));
           ("subject", JStr "[[email:reset.notify.subject]]")]] ;;
  ret JUndefined.

End Reset.
End reset.

Section Following.
Context {W : Type} `{Services W}.

Definition isFollowing (sock : socket) (data : value) : M W value :=
  if not_ (JNum (uid sock)) then ret (JBool false) else
  target <- await (get_prop data "uid") ;;
  if not_ target then ret (JBool false) else
  call user_isFollowing [JNum (uid sock); target].

Definition follow (sock : socket) (data : value) : M W value :=
  warnDeprecated sock "POST /api/v3/users/follow" ;;
  call api_users_follow [socket_val sock; data] ;;
  ret JUndefined.

Definition unfollow (sock : socket) (data : value) : M W value :=
  warnDeprecated sock "DELETE /api/v3/users/unfollow" ;;
  call api_users_unfollow [socket_val sock; data] ;;
  ret JUndefined.

Definition saveSettings (sock : socket) (data : value) : M W value :=
  warnDeprecated sock "PUT /api/v3/users/:uid/settings" ;;
  settings <- call api_users_updateSettings [socket_val sock; data] ;;
  ret settings.

Definition setTopicSort (sock : socket) (sort : value) : M W value :=
  warnDeprecated sock "PUT /api/v3/users/:uid/setting/topicPostSort" ;;
  call api_users_updateSetting
    [socket_val sock;
     JObj [("uid", JNum (uid sock));
           ("setting", JStr "topicPostSort");
           ("value", sort)]] ;;
  ret JUndefined.

Definition setCategorySort (sock : socket) (sort : value) : M W value :=
  warnDeprecated sock "PUT /api/v3/users/:uid/setting/categoryTopicSort" ;;
  call api_users_updateSetting
    [socket_val sock;
     JObj [("uid", JNum (uid sock));
           ("setting", JStr "categoryTopicSort");
           ("value", sort)]] ;;
  ret JUndefined.

End Following.

Section Unread.
Context {W : Type} `{Services W}.

Definition getUnreadCount (sock : socket) : M W value :=
  if not_ (JNum (uid sock)) then ret (JNum 0) else
  call topics_getTotalUnread [JNum (uid sock); JStr ""].

Definition getUnreadChatCount (sock : socket) : M W value :=
  if not_ (JNum (uid sock)) then ret (JNum 0) else
  call messaging_getUnreadCount [JNum (uid sock)].

(** [results.unreadCounts[key]] *)
Definition unreadCounts_of (results : value) (key : string) : M W value :=
  unreadCounts <- await (get_prop results "unreadCounts") ;;
  await (get_prop unreadCounts key).

Definition getUnreadCounts (sock : socket) : M W value :=
  if not_ (JNum (uid sock)) then ret (JObj []) else
  p1 <- start topics_getUnreadTids
          [JObj [("uid", JNum (uid sock)); ("count", JBool true)]] ;;
  p2 <- start messaging_getUnreadCount [JNum (uid sock)] ;;
  p3 <- start user_notifications_getUnreadCount [JNum (uid sock)] ;;
  results <- await (promiseParallel
                      [("unreadCounts", p1);
                       ("unreadChatCount", p2);
                       ("unreadNotificationCount", p3)]) ;;
  v <- unreadCounts_of results "" ;;
  results <- await (set_prop results "unreadTopicCount" v) ;;
  v <- unreadCounts_of results "new" ;;
  results <- await (set_prop results "unreadNewTopicCount" v) ;;
  v <- unreadCounts_of results "watched" ;;
  results <- await (set_prop results "unreadWatchedTopicCount" v) ;;
  v <- unreadCounts_of results "unreplied" ;;
  results <- await (set_prop results "unreadUnrepliedTopicCount" v) ;;
  ret results.

End Unread.

Section Lookup.
Context {W : Type} `{Services W}.

Definition getUserByUID (sock : socket) (uid_ : value) : M W value :=
  call userController_getUserDataByField
    [JNum (uid sock); JStr "uid"; uid_].

Definition getUserByUsername (sock : socket) (username : value) : M W value :=
  call userController_getUserDataByField
    [JNum (uid sock); JStr "username"; username].

Definition getUserByEmail (sock : socket) (email : value) : M W value :=
  call userController_getUserDataByField
    [JNum (uid sock); JStr "email"; email].

End Lookup.

Section Moderation.
Context {W : Type} `{Services W}.

Definition setModerationNote (sock : socket) (data : value) : M W value :=
  if not_ (JNum (uid sock)) then throw InvalidData else
  if not_ data then throw InvalidData else
  target <- await (get_prop data "uid") ;;
  if not_ target then throw InvalidData else
  note <- await (get_prop data "note") ;;
  if not_ note then throw InvalidData else
  timestamp <- now_ms ;;
  let noteData :=
    JObj [("uid", JNum (uid sock));
          ("note", note);
          ("timestamp", JNum timestamp)] in
  canEdit <- call privileges_users_canEdit [JNum (uid sock); target] ;;
  canEdit <- (if not_ canEdit
              then call user_isModeratorOfAnyCategory [JNum (uid sock)]
              else ret canEdit) ;;
  if not_ canEdit then throw NoPrivileges else
  call user_appendModerationNote
    [JObj [("uid", target); ("noteData", noteData)]] ;;
  ret JUndefined.

Definition deleteUpload (sock : socket) (data : value) : M W value :=
  if not_ data then throw InvalidData else
  name <- await (get_prop data "name") ;;
  if not_ name then throw InvalidData else
  target <- await (get_prop data "uid") ;;
  if not_ target then throw InvalidData else
  call user_deleteUpload [JNum (uid sock); target; name] ;;
  ret JUndefined.

End Moderation.

Module gdpr.
Section Gdpr.
Context {W : Type} `{Services W}.

Definition consent (sock : socket) : M W value :=
  call user_setUserField [JNum (uid sock); JStr "gdpr_consent"; JNum 1] ;;
  ret JUndefined.

Definition check (sock : socket) (data : value) : M W value :=
  isAdmin <- call user_isAdministrator [JNum (uid sock)] ;;
  data <- (if not_ isAdmin
           then await (set_prop data "uid" (JNum (uid sock)))
           else ret data) ;;
  target <- await (get_prop data "uid") ;;
  call db_getObjectField
    [JStr ("user:" +s+ to_string target); JStr "gdpr_consent"].

End Gdpr.
End gdpr.

End SocketUser.

(** ** A scripted world

    A concrete instance of the service interface, to run the handlers on:
    the world is a clock and a calendar date, every service answers as a
    fixed script says, and the timer advances the clock. *)

Record sim_world : Type := { ms : Z; today : Date }.

Definition script : Type := service -> list value -> outcome value.

Definition scripted (answers : script) (cfg : list (string * value))
  : Services sim_world :=
  {| svc := fun f args w => (answers f args, w);
     elapse := fun d w => {| ms := ms w + d; today := today w |};
     meta_config := fun _ => cfg;
     Date_now := ms;
     new_Date := today |}.

Definition epoch : sim_world :=
  {| ms := 1600000000000;
     today := {| getFullYear := 2021; getMonth := 0; getDate := 5 |} |}.

(** Every service fulfils with [undefined]. *)
Definition quiet : script := fun _ _ => Return JUndefined.

Definition guest : socket := {| uid := 0; ip := "127.0.0.1" |}.
Definition alice : socket := {| uid := 7; ip := "10.0.0.7" |}.


(** The reset service knows no account for the address. *)
Definition no_such_email : script :=
  fun f _ =>
    match f with
    | user_reset_send => Throw (Error "[[error:invalid-email]]")
    | _ => Return JUndefined
    end.

(** The reset service fails for a reason of its own. *)
Definition mailer_down : script :=
  fun f _ =>
    match f with
    | user_reset_send => Throw (Error "[[error:sendmail-not-found]]")
    | _ => Return JUndefined
    end.

Definition someone : value := JStr "someone@example.org".

(** ** Vocabulary of the statements *)

(** The audit logger answers every call: [events.log] fulfils. *)
Definition logger_reliable {W : Type} `{Services W} : Prop :=
  forall (args : list value) (w : W),
    exists (v : value) (w' : W), svc events_log args w = (Return v, w').

(** The two failures of issuance that [reset.send] keeps to itself. *)
Definition expected_failure (m : string) : Prop :=
  m = "[[error:invalid-email]]" \/ m = "[[error:reset-rate-limited]]".

(** The audit record [reset.send] writes. *)
Definition send_audit (sock : socket) (email : value) (text : string)
  : list value :=
  [JObj [("type", JStr "password-reset");
         ("text", JStr text);
         ("ip", JStr (ip sock));
         ("uid", JNum (uid sock));
         ("email", email)]].

(** [o.k] where [o] is known not to be [undefined] or [null]. *)
Definition field (o : value) (k : string) : value :=
  match get_prop o k with
  | Return v => v
  | Throw _ => JUndefined
  end.

(** What [reset.commit] does, in order, when nothing fails: the three
    sub-actions, the audit record, the username lookup, the notification. *)
Definition commit_trace (sock : socket) (code password uid_ username : value)
    (now : Date) : trace :=
  [Call db_getObjectField [JStr "reset:uid"; code];
   Call user_reset_commit [code; password];
   Call plugins_hooks_fire
     [JStr "action:password.reset"; JObj [("uid", JNum (uid sock))]];
   Call events_log
     [JObj [("type", JStr "password-reset");
            ("uid", uid_);
            ("ip", JStr (ip sock))]];
   Call user_getUserField [uid_; JStr "username"];
   Call emailer_send
     [JStr "reset_notify"; uid_;
      JObj [("username", username);
            ("date", JStr (parsedDate now));
            ("subject", JStr "[[email:reset.notify.subject]]")]]].

(** The reset code [c0de] belongs to user 7, whose name is alice. *)
Definition reset_pending : script :=
  fun f args =>
    match f, args with
    | db_getObjectField, [JStr "reset:uid"; JStr "c0de"] => Return (JNum 7)
    | user_getUserField, [JNum 7; JStr "username"] => Return (JStr "alice")
    | _, _ => Return JUndefined
    end.

Definition new_password : value :=
  JObj [("code", JStr "c0de"); ("password", JStr "correct horse")].

(** A handler that awaits a call and returns nothing completes as the call
    does. *)
Definition then_undefined (r : outcome value) : outcome value :=
  match r with
  | Return _ => Return JUndefined
  | Throw e => Throw e
  end.

(** [undefined] and [null], through which no property can be read. *)
Definition nullish (v : value) : bool :=
  match v with
  | JUndefined | JNull => true
  | _ => false
  end.

(** User 1 administrates; user 7 has consented, user 8 has not. *)
Definition consents : script :=
  fun f args =>
    match f, args with
    | user_isAdministrator, [JNum 1] => Return (JBool true)
    | user_isAdministrator, _ => Return (JBool false)
    | db_getObjectField, [JStr "user:7"; JStr "gdpr_consent"] =>
        Return (JNum 1)
    | db_getObjectField, [JStr "user:8"; JStr "gdpr_consent"] =>
        Return (JNum 0)
    | _, _ => Return JUndefined
    end.

Definition root : socket := {| uid := 1; ip := "10.0.0.1" |}.

(** The argument of [user.appendModerationNote]: the target of the payload
    and the note signed with the uid of the session and stamped. *)
Definition moderation_note (sock : socket) (data : value) (timestamp : Z)
  : list value :=
  [JObj [("uid", field data "uid");
         ("noteData",
          JObj [("uid", JNum (uid sock));
                ("note", field data "note");
                ("timestamp", JNum timestamp)])]].

(** Nobody may edit anybody; user 7 moderates a category. *)
Definition moderators : script :=
  fun f args =>
    match f, args with
    | privileges_users_canEdit, _ => Return (JBool false)
    | user_isModeratorOfAnyCategory, [JNum 7] => Return (JBool true)
    | user_isModeratorOfAnyCategory, _ => Return (JBool false)
    | _, _ => Return JUndefined
    end.

(** Everybody may edit everybody. *)
Definition editors : script :=
  fun f args =>
    match f with
    | privileges_users_canEdit => Return (JBool true)
    | _ => Return JUndefined
    end.

Definition bob : socket := {| uid := 9; ip := "10.0.0.9" |}.

Definition note_on_8 : value :=
  JObj [("uid", JNum 8); ("note", JStr "spams the lounge")].

(** The object [getUnreadCounts] returns from what its three queries
    fulfil with. *)
Definition unread_bundle (counts chat notifications : value) : value :=
  JObj [("unreadCounts", counts);
        ("unreadChatCount", chat);
        ("unreadNotificationCount", notifications);
        ("unreadTopicCount", field counts "");
        ("unreadNewTopicCount", field counts "new");
        ("unreadWatchedTopicCount", field counts "watched");
        ("unreadUnrepliedTopicCount", field counts "unreplied")].

(** The three queries of [getUnreadCounts], in the order they are issued. *)
Definition unread_queries (sock : socket) : trace :=
  [Call topics_getUnreadTids
     [JObj [("uid", JNum (uid sock)); ("count", JBool true)]];
   Call messaging_getUnreadCount [JNum (uid sock)];
   Call user_notifications_getUnreadCount [JNum (uid sock)]].

Definition unread : script :=
  fun f _ =>
    match f with
    | topics_getUnreadTids =>
        Return (JObj [("", JNum 5); ("new", JNum 2); ("watched", JNum 1);
                      ("unreplied", JNum 3)])
    | messaging_getUnreadCount => Return (JNum 4)
    | user_notifications_getUnreadCount => Return (JNum 6)
    | _ => Return JUndefined
    end.

(** A handler rejects guests at the gate: for a guest session it throws
    no-privileges and leaves the world and the trace as they were. *)
Definition refuses_guests {W : Type} `{Services W}
    (handler : socket -> value -> M W value) : Prop :=
  forall (sock : socket) (data : value) (w : W) (t : trace),
    uid sock = 0 ->
    handler sock data (w, t) = (Throw NoPrivileges, (w, t)).

(** What a handler that only warns and delegates leaves behind. *)
Definition delegated {W : Type} `{Services W} (sock : socket)
    (replacement : string) (f : service) (args : list value) (w : W)
    (t : trace) : W * trace :=
  (snd (svc f args w), t ++ [Deprecated sock replacement; Call f args]).

Definition upload_of_8 : value :=
  JObj [("uid", JNum 8); ("name", JStr "files/avatar.png")].

(** ** Further scripted worlds *)

(** Every name and every address is taken; everybody follows everybody. *)
Definition crowded : script :=
  fun f _ =>
    match f with
    | meta_userOrGroupExists | user_email_exists | user_isFollowing =>
        Return (JBool true)
    | _ => Return JUndefined
    end.

(** The audit log cannot be written. *)
Definition logger_down : script :=
  fun f _ =>
    match f with
    | events_log => Throw (Error "[[error:log-unavailable]]")
    | _ => Return JUndefined
    end.

(** The address is unknown and the audit log cannot be written. *)
Definition unknown_and_unlogged : script :=
  fun f _ =>
    match f with
    | user_reset_send => Throw (Error "[[error:invalid-email]]")
    | events_log => Throw (Error "[[error:log-unavailable]]")
    | _ => Return JUndefined
    end.

(** The reset code has expired: the commit is refused. *)
Definition reset_expired : script :=
  fun f _ =>
    match f with
    | user_reset_commit => Throw (Error "[[error:reset-code-not-valid]]")
    | _ => Return JUndefined
    end.

(** As [reset_pending], with an emailer that rejects. *)
Definition reset_pending_no_mail : script :=
  fun f args =>
    match f with
    | emailer_send => Throw (Error "[[error:sendmail-not-found]]")
    | _ => reset_pending f args
    end.

(** The privilege lookup fails. *)
Definition acl_down : script :=
  fun f _ =>
    match f with
    | privileges_users_canEdit => Throw (Error "[[error:acl-unavailable]]")
    | _ => Return JUndefined
    end.

(** The topic engine answers [null]. *)
Definition no_counts : script :=
  fun f _ =>
    match f with
    | topics_getUnreadTids => Return JNull
    | _ => Return (JNum 0)
    end.

(** No character of the string is a slash. *)
Fixpoint slash_free (s : string) : Prop :=
  match s with
  | EmptyString => True
  | String c rest => c <> "/"%char /\ slash_free rest
  end.

(** A local date as the calendar has it: a year of the common era, a
    0-based month, a day of the month. *)
Definition calendar_date (d : Date) : Prop :=
  1 <= getFullYear d /\ 0 <= getMonth d <= 11 /\ 1 <= getDate d <= 31.

(** The values [to_string] renders as JavaScript does whatever else they
    carry: everything but objects, and of the numbers the integers that a
    JavaScript number holds exactly. *)
Definition rendered_plainly (v : value) : Prop :=
  match v with
  | JNum n => Z.abs n < 2 ^ 53
  | JObj _ => False
  | _ => True
  end.
(** ** Proof support *)

Ltac js_step :=
  repeat progress
    unfold bind, ret, throw, await, call, start, try_catch, sleep,
      warnDeprecated, config, now_ms, now_date, not_ in *;
  simpl in *.

Arguments includes : simpl never.

Lemma not_uid_guest (z : Z) : not_ (JNum z) = true <-> z = 0.
Proof.
  unfold not_. simpl. rewrite negb_involutive. apply Z.eqb_eq.
Qed.

Lemma not_uid_member (z : Z) : not_ (JNum z) = false <-> z <> 0.
Proof.
  unfold not_. simpl. rewrite negb_involutive. apply Z.eqb_neq.
Qed.

Lemma not_truthy (v : value) : not_ v = false <-> truthy v = true.
Proof. unfold not_. apply negb_false_iff. Qed.

Lemma not_falsy (v : value) : not_ v = true <-> truthy v = false.
Proof. unfold not_. apply negb_true_iff. Qed.

(** ** Email confirmation *)

Section EmailConfirm.
Context {W : Type} `{Services W}.

(** C9: [emailConfirm] throws no-privileges for a guest session, whatever
    the configuration says (the session is looked at first); for a logged-in
    session it throws email-confirmations-are-disabled when
    [meta.config.requireEmailConfirmation] is off; in both cases nothing is
    called and the world is left as it was.  Only when both tests pass is the
    validation email requested, and the handler then completes as that call
    does. *)
Theorem emailConfirm_gates (sock : socket) (w : W) (t : trace) :
  (uid sock = 0 ->
   SocketUser.emailConfirm sock (w, t) = (Throw NoPrivileges, (w, t)))
  /\ (uid sock <> 0 ->
      truthy (lookup "requireEmailConfirmation" (meta_config w)) = false ->
      SocketUser.emailConfirm sock (w, t)
      = (Throw EmailConfirmationsDisabled, (w, t)))
  /\ (uid sock <> 0 ->
      truthy (lookup "requireEmailConfirmation" (meta_config w)) = true ->
      SocketUser.emailConfirm sock (w, t)
      = (fst (svc user_email_sendValidationEmail [JNum (uid sock)] w),
         (snd (svc user_email_sendValidationEmail [JNum (uid sock)] w),
          t ++ [Call user_email_sendValidationEmail [JNum (uid sock)]]))).
Proof.
  unfold SocketUser.emailConfirm.
  repeat split.
  - intros Hg. apply not_uid_guest in Hg. now rewrite Hg.
  - intros Hm Hc. apply not_uid_member in Hm. rewrite Hm.
    js_step. now rewrite Hc.
  - intros Hm Hc. apply not_uid_member in Hm. rewrite Hm.
    js_step. rewrite Hc. simpl.
    now destruct (svc user_email_sendValidationEmail [JNum (uid sock)] w).
Qed.

End EmailConfirm.

(** A logged-in session on a forum that does not require confirmation, a
    guest on one that does, and a logged-in session on one that does. *)
Lemma emailConfirm_gates_witness :
  @SocketUser.emailConfirm _
    (scripted quiet [("requireEmailConfirmation", JNum 1)]) guest (epoch, [])
  = (Throw NoPrivileges, (epoch, []))
  /\ @SocketUser.emailConfirm _
       (scripted quiet [("requireEmailConfirmation", JNum 0)]) alice (epoch, [])
     = (Throw EmailConfirmationsDisabled, (epoch, []))
  /\ @SocketUser.emailConfirm _
       (scripted quiet [("requireEmailConfirmation", JNum 1)]) alice (epoch, [])
     = (Return JUndefined,
        (epoch, [Call user_email_sendValidationEmail [JNum 7]])).
Proof.
  split; [| split].
  - apply (@emailConfirm_gates _
             (scripted quiet [("requireEmailConfirmation", JNum 1)])
             guest epoch []).
    reflexivity.
  - apply (@emailConfirm_gates _
             (scripted quiet [("requireEmailConfirmation", JNum 0)])
             alice epoch []).
    + simpl. lia.
    + reflexivity.
  - apply (@emailConfirm_gates _
             (scripted quiet [("requireEmailConfirmation", JNum 1)])
             alice epoch []).
    + simpl. lia.
    + reflexivity.
Defined.

(** ** Traces *)

Lemma calls_to_app (f : service) (t1 t2 : trace) :
  calls_to f (t1 ++ t2) = calls_to f t1 ++ calls_to f t2.
Proof. unfold calls_to. apply flat_map_app. Qed.

Lemma filter_sleep_app (t1 t2 : trace) :
  filter is_sleep (t1 ++ t2) = filter is_sleep t1 ++ filter is_sleep t2.
Proof. apply filter_app. Qed.

Lemma includes_internalErrors (m : string) :
  includes SocketUser.reset.internalErrors m = true <-> expected_failure m.
Proof.
  unfold includes, SocketUser.reset.internalErrors, expected_failure. simpl.
  rewrite !orb_true_iff, !String.eqb_eq. intuition discriminate.
Qed.

(** ** Password reset: issuance *)

Section ResetSend.
Context {W : Type} `{Services W}.

(** C8: [reset.send] without an email throws invalid-data, and with an email
    while [meta.config['password:disableEdit']] is set throws no-privileges.
    Either way it ends in the world and with the trace it started from:
    nothing was requested, logged or waited for. *)
Theorem reset_send_validates (sock : socket) (email : value) (w : W)
    (t : trace) :
  (truthy email = false ->
   SocketUser.reset.send sock email (w, t) = (Throw InvalidData, (w, t)))
  /\ (truthy email = true ->
      truthy (lookup "password:disableEdit" (meta_config w)) = true ->
      SocketUser.reset.send sock email (w, t) = (Throw NoPrivileges, (w, t))).
Proof.
  unfold SocketUser.reset.send. split.
  - intros He. apply not_falsy in He. now rewrite He.
  - intros He Hc. apply not_truthy in He. rewrite He.
    js_step. now rewrite Hc.
Qed.

(** Past validation the handler is its try/catch. *)
Lemma reset_send_validated (sock : socket) (email : value) (w : W)
    (t : trace) :
  truthy email = true ->
  truthy (lookup "password:disableEdit" (meta_config w)) = false ->
  SocketUser.reset.send sock email (w, t)
  = try_catch
      (call user_reset_send [email] ;;
       SocketUser.reset.logEvent sock email "[[success:success]]" ;;
       sleep 2500 ;;
       ret JUndefined)
      (fun err =>
         SocketUser.reset.logEvent sock email (message err) ;;
         if negb (includes SocketUser.reset.internalErrors (message err))
         then throw err else ret JUndefined)
      (w, t).
Proof.
  intros He Hc. unfold SocketUser.reset.send.
  apply not_truthy in He. rewrite He.
  unfold bind at 1. unfold config. simpl. now rewrite Hc.
Qed.

(** C3: past validation, and with an audit logger that answers, [reset.send]
    writes exactly one audit record.  When issuance succeeds the record says
    so and the handler returns.  When issuance fails with error [e] the
    record carries the message of [e]; the handler returns normally exactly
    when that message is one of the two expected ones, and throws [e] itself
    in every other case. *)
Theorem reset_send_audit (sock : socket) (email : value) (w w' : W)
    (t t' : trace) (r : outcome value) :
  truthy email = true ->
  truthy (lookup "password:disableEdit" (meta_config w)) = false ->
  logger_reliable ->
  SocketUser.reset.send sock email (w, t) = (r, (w', t')) ->
  match fst (svc user_reset_send [email] w) with
  | Return _ =>
      calls_to events_log t'
      = calls_to events_log t
          ++ [send_audit sock email "[[success:success]]"]
      /\ r = Return JUndefined
  | Throw e =>
      calls_to events_log t'
      = calls_to events_log t ++ [send_audit sock email (message e)]
      /\ (r = Return JUndefined <-> expected_failure (message e))
      /\ (~ expected_failure (message e) -> r = Throw e)
  end.
Proof.
  intros He Hc Hlog Hrun.
  rewrite (reset_send_validated _ _ _ _ He Hc) in Hrun.
  unfold SocketUser.reset.logEvent in Hrun. js_step.
  destruct (svc user_reset_send [email] w) as [[v | e] w1] eqn:Es; simpl in *.
  - destruct (Hlog (send_audit sock email "[[success:success]]") w1)
      as (v1 & w2 & El).
    unfold send_audit in El. rewrite El in Hrun. simpl in Hrun.
    inversion Hrun; subst. split; [| reflexivity].
    rewrite !calls_to_app. simpl. now rewrite !app_nil_r.
  - destruct (Hlog (send_audit sock email (message e)) w1) as (v1 & w2 & El).
    unfold send_audit in El. rewrite El in Hrun. simpl in Hrun.
    rewrite <- includes_internalErrors.
    destruct (includes SocketUser.reset.internalErrors (message e));
      simpl in Hrun; inversion Hrun; subst;
      (split; [rewrite !calls_to_app; simpl; now rewrite !app_nil_r |]).
    + split; [tauto | intros Hn; now elim Hn].
    + split; [split; discriminate | reflexivity].
Qed.

(** X7: a failed issuance never waits: past validation, when
    [user.reset.send] rejects, the run adds no [sleep] to the trace,
    whatever becomes of the audit write. *)
Lemma reset_send_failure_skips_cooldown (sock : socket) (email : value)
    (w w' : W) (t t' : trace) (r : outcome value) (e : exn) :
  truthy email = true ->
  truthy (lookup "password:disableEdit" (meta_config w)) = false ->
  fst (svc user_reset_send [email] w) = Throw e ->
  SocketUser.reset.send sock email (w, t) = (r, (w', t')) ->
  filter is_sleep t' = filter is_sleep t.
Proof.
  intros He Hc Hf Hrun.
  rewrite (reset_send_validated _ _ _ _ He Hc) in Hrun.
  unfold SocketUser.reset.logEvent in Hrun. js_step.
  destruct (svc user_reset_send [email] w) as [[v | e'] w1] eqn:Es;
    simpl in *; [discriminate |].
  match type of Hrun with
  | context [svc events_log ?a ?x] =>
      destruct (svc events_log a x) as [[v1 | e1] w2]
  end; simpl in Hrun.
  - destruct (includes SocketUser.reset.internalErrors (message e'));
      simpl in Hrun; inversion Hrun; subst;
      rewrite !filter_sleep_app; simpl; now rewrite !app_nil_r.
  - inversion Hrun; subst.
    rewrite !filter_sleep_app; simpl; now rewrite !app_nil_r.
Qed.

(** X4: a failed issuance is written to the audit log once, with its message,
    whether or not the write itself succeeds. *)
Lemma reset_send_failure_logged_once (sock : socket) (email : value)
    (w w' : W) (t t' : trace) (r : outcome value) (e : exn) :
  truthy email = true ->
  truthy (lookup "password:disableEdit" (meta_config w)) = false ->
  fst (svc user_reset_send [email] w) = Throw e ->
  SocketUser.reset.send sock email (w, t) = (r, (w', t')) ->
  calls_to events_log t'
  = calls_to events_log t ++ [send_audit sock email (message e)].
Proof.
  intros He Hc Hf Hrun.
  rewrite (reset_send_validated _ _ _ _ He Hc) in Hrun.
  unfold SocketUser.reset.logEvent in Hrun. js_step.
  destruct (svc user_reset_send [email] w) as [[v | e'] w1] eqn:Es;
    simpl in *; [discriminate |].
  injection Hf as ->.
  match type of Hrun with
  | context [svc events_log ?a ?x] =>
      destruct (svc events_log a x) as [[v1 | e1] w2]
  end; simpl in Hrun.
  - destruct (includes SocketUser.reset.internalErrors (message e));
      simpl in Hrun; inversion Hrun; subst;
      rewrite !calls_to_app; simpl; now rewrite !app_nil_r.
  - inversion Hrun; subst.
    rewrite !calls_to_app; simpl; now rewrite !app_nil_r.
Qed.

(** X6: on the success path the handler waits 2500 ms after the audit write
    and then returns. *)
Lemma reset_send_success_takes_cooldown (sock : socket) (email : value)
    (w w1 w2 : W) (t : trace) (v v1 : value) :
  truthy email = true ->
  truthy (lookup "password:disableEdit" (meta_config w)) = false ->
  svc user_reset_send [email] w = (Return v, w1) ->
  svc events_log (send_audit sock email "[[success:success]]") w1
  = (Return v1, w2) ->
  SocketUser.reset.send sock email (w, t)
  = (Return JUndefined,
     (elapse 2500 w2,
      t ++ [Call user_reset_send [email];
            Call events_log (send_audit sock email "[[success:success]]");
            Sleep 2500])).
Proof.
  intros He Hc Es El.
  rewrite (reset_send_validated _ _ _ _ He Hc).
  unfold SocketUser.reset.logEvent, send_audit in *. js_step.
  rewrite Es. simpl. rewrite El. simpl. now rewrite <- !app_assoc.
Qed.

End ResetSend.

Lemma scripted_logger_reliable (answers : script)
    (cfg : list (string * value)) :
  (forall args, exists v, answers events_log args = Return v) ->
  @logger_reliable _ (scripted answers cfg).
Proof.
  intros Ha args w. destruct (Ha args) as [v Hv].
  exists v, w. simpl. now rewrite Hv.
Qed.

Lemma reset_send_validates_witness :
  @SocketUser.reset.send _ (scripted quiet []) alice JUndefined (epoch, [])
  = (Throw InvalidData, (epoch, []))
  /\ @SocketUser.reset.send _
       (scripted quiet [("password:disableEdit", JNum 1)])
       alice someone (epoch, [])
     = (Throw NoPrivileges, (epoch, [])).
Proof.
  split.
  - apply (@reset_send_validates _ (scripted quiet []) alice JUndefined
             epoch []).
    reflexivity.
  - apply (@reset_send_validates _
             (scripted quiet [("password:disableEdit", JNum 1)])
             alice someone epoch []); reflexivity.
Defined.

(** An unknown address, a broken mailer and a successful issuance. *)
Lemma reset_send_audit_witness :
  ([send_audit alice someone "[[error:invalid-email]]"]
   = [] ++ [send_audit alice someone "[[error:invalid-email]]"]
   /\ (Return JUndefined = Return JUndefined
       <-> expected_failure "[[error:invalid-email]]")
   /\ (~ expected_failure "[[error:invalid-email]]" ->
       Return JUndefined = Throw (Error "[[error:invalid-email]]")))
  /\ ([send_audit alice someone "[[error:sendmail-not-found]]"]
      = [] ++ [send_audit alice someone "[[error:sendmail-not-found]]"]
      /\ (Throw (Error "[[error:sendmail-not-found]]") = Return JUndefined
          <-> expected_failure "[[error:sendmail-not-found]]")
      /\ (~ expected_failure "[[error:sendmail-not-found]]" ->
          @Throw value (Error "[[error:sendmail-not-found]]")
          = Throw (Error "[[error:sendmail-not-found]]")))
  /\ ([send_audit alice someone "[[success:success]]"]
      = [] ++ [send_audit alice someone "[[success:success]]"]
      /\ Return JUndefined = Return JUndefined).
Proof.
  split; [| split].
  - apply (@reset_send_audit _ (scripted no_such_email []) alice someone
             epoch epoch []
             [Call user_reset_send [someone];
              Call events_log
                (send_audit alice someone "[[error:invalid-email]]")]
             (Return JUndefined)).
    + reflexivity.
    + reflexivity.
    + apply scripted_logger_reliable. intros args. now exists JUndefined.
    + reflexivity.
  - apply (@reset_send_audit _ (scripted mailer_down []) alice someone
             epoch epoch []
             [Call user_reset_send [someone];
              Call events_log
                (send_audit alice someone "[[error:sendmail-not-found]]")]
             (Throw (Error "[[error:sendmail-not-found]]"))).
    + reflexivity.
    + reflexivity.
    + apply scripted_logger_reliable. intros args. now exists JUndefined.
    + reflexivity.
  - apply (@reset_send_audit _ (scripted quiet []) alice someone
             epoch {| ms := ms epoch + 2500; today := today epoch |} []
             [Call user_reset_send [someone];
              Call events_log
                (send_audit alice someone "[[success:success]]");
              Sleep 2500]
             (Return JUndefined)).
    + reflexivity.
    + reflexivity.
    + apply scripted_logger_reliable. intros args. now exists JUndefined.
    + reflexivity.
Defined.

(** C2: the cooldown is not taken when issuance fails.  For an address the
    reset service rejects, [reset.send] returns normally after the request
    and the audit record, with no [sleep] in its trace and the clock where
    it was; the same request on a successful issuance ends with the 2500 ms
    wait. *)
Theorem reset_send_rejected_address_returns_at_once :
  @SocketUser.reset.send _ (scripted no_such_email []) alice someone
    (epoch, [])
  = (Return JUndefined,
     (epoch,
      [Call user_reset_send [someone];
       Call events_log (send_audit alice someone "[[error:invalid-email]]")]))
  /\ @SocketUser.reset.send _ (scripted quiet []) alice someone (epoch, [])
     = (Return JUndefined,
        ({| ms := ms epoch + 2500; today := today epoch |},
         [Call user_reset_send [someone];
          Call events_log (send_audit alice someone "[[success:success]]");
          Sleep 2500])).
Proof. split; reflexivity. Qed.

(** ** Password reset: commit *)

Lemma get_prop_truthy (o : value) (k : string) :
  truthy o = true -> get_prop o k = Return (field o k).
Proof. unfold field. now destruct o. Qed.

(** Positive integers are rendered without a leading zero. *)
Lemma dec_no_leading_zero (n : Z) :
  0 < n -> exists c s, dec n = String c s /\ c <> "0"%char.
Proof.
  intros Hn. destruct n as [| p | p]; try lia.
  unfold dec. simpl Z.to_int. unfold NilZero.string_of_int.
  pose proof (DecimalPos.Unsigned.to_uint_nonzero p) as Hz.
  pose proof (DecimalPos.Unsigned.to_of (Pos.to_uint p)) as Hu.
  rewrite DecimalPos.Unsigned.of_to in Hu. simpl N.to_uint in Hu.
  unfold NilZero.string_of_uint.
  destruct (Pos.to_uint p) as [| d | d | d | d | d | d | d | d | d | d];
    simpl; try (eexists; eexists; split; [reflexivity | discriminate]).
  exfalso. rewrite DecimalFacts.unorm_D0 in Hu.
  assert (Hd : d <> Decimal.Nil) by (intros ->; now elim Hz).
  pose proof (DecimalFacts.nb_digits_unorm d Hd) as Hl.
  rewrite <- Hu in Hl. simpl in Hl. lia.
Qed.

Section ResetCommit.
Context {W : Type} `{Services W}.

(** C4: [reset.commit] throws invalid-data for a payload that is absent or
    lacks a code or a password, before any of its sub-actions is started.
    With a code and a password, when the three sub-actions, the audit write
    and the username lookup fulfil, the handler returns, and what it did is
    exactly this: the three sub-actions, one audit record carrying the uid
    that [db.getObjectField('reset:uid', code)] resolved and the ip of the
    caller, the lookup of the username of that uid, and one [reset_notify]
    email for that uid carrying that username and the date, which reads
    year, slash, month counted from 1, slash, day, each in plain decimal
    and, for a calendar date, none beginning with a 0.  Conversely a run
    that returns is of this shape. *)
Theorem reset_commit_audits_and_notifies (sock : socket) (data : value)
    (w : W) (t : trace) :
  (truthy data = false
   \/ truthy (field data "code") = false
   \/ truthy (field data "password") = false ->
   SocketUser.reset.commit sock data (w, t) = (Throw InvalidData, (w, t)))
  /\ (forall (w1 w2 w3 w4 w5 : W) (uid_ v2 v3 v4 username : value),
        truthy data = true ->
        truthy (field data "code") = true ->
        truthy (field data "password") = true ->
        svc db_getObjectField [JStr "reset:uid"; field data "code"] w
        = (Return uid_, w1) ->
        svc user_reset_commit [field data "code"; field data "password"] w1
        = (Return v2, w2) ->
        svc plugins_hooks_fire
          [JStr "action:password.reset"; JObj [("uid", JNum (uid sock))]] w2
        = (Return v3, w3) ->
        svc events_log
          [JObj [("type", JStr "password-reset"); ("uid", uid_);
                 ("ip", JStr (ip sock))]] w3
        = (Return v4, w4) ->
        svc user_getUserField [uid_; JStr "username"] w4
        = (Return username, w5) ->
        let year := dec (getFullYear (new_Date w5)) in
        let month := dec (getMonth (new_Date w5) + 1) in
        let day := dec (getDate (new_Date w5)) in
        let audit :=
          [JObj [("type", JStr "password-reset"); ("uid", uid_);
                 ("ip", JStr (ip sock))]] in
        let notice :=
          [JStr "reset_notify"; uid_;
           JObj [("username", username);
                 ("date", JStr (year +s+ "/" +s+ month +s+ "/" +s+ day));
                 ("subject", JStr "[[email:reset.notify.subject]]")]] in
        let t' :=
          t ++ [Call db_getObjectField [JStr "reset:uid"; field data "code"];
                Call user_reset_commit
                  [field data "code"; field data "password"];
                Call plugins_hooks_fire
                  [JStr "action:password.reset";
                   JObj [("uid", JNum (uid sock))]];
                Call events_log audit;
                Call user_getUserField [uid_; JStr "username"];
                Call emailer_send notice] in
        SocketUser.reset.commit sock data (w, t)
        = (Return JUndefined, (snd (svc emailer_send notice w5), t'))
        /\ calls_to events_log t' = calls_to events_log t ++ [audit]
        /\ calls_to emailer_send t' = calls_to emailer_send t ++ [notice]
        /\ (calendar_date (new_Date w5) ->
            1 <= getMonth (new_Date w5) + 1 <= 12
            /\ exists (cy cm cd : ascii) (sy sm sd : string),
                 year = String cy sy /\ cy <> "0"%char
                 /\ month = String cm sm /\ cm <> "0"%char
                 /\ day = String cd sd /\ cd <> "0"%char))
  /\ (forall (v : value) (w' : W) (t' : trace),
        SocketUser.reset.commit sock data (w, t) = (Return v, (w', t')) ->
        exists (uid_ username : value) (w4 : W),
          fst (svc db_getObjectField [JStr "reset:uid"; field data "code"] w)
          = Return uid_
          /\ fst (svc user_getUserField [uid_; JStr "username"] w4)
             = Return username
          /\ w' = snd (svc emailer_send
                         [JStr "reset_notify"; uid_;
                          JObj [("username", username);
                                ("date", JStr (parsedDate (new_Date
                                   (snd (svc user_getUserField
                                           [uid_; JStr "username"] w4)))));
                                ("subject",
                                 JStr "[[email:reset.notify.subject]]")]]
                         (snd (svc user_getUserField
                                 [uid_; JStr "username"] w4)))
          /\ t' = t ++ commit_trace sock (field data "code")
                         (field data "password") uid_ username
                         (new_Date (snd (svc user_getUserField
                                           [uid_; JStr "username"] w4)))
          /\ calls_to events_log t'
             = calls_to events_log t
                 ++ [[JObj [("type", JStr "password-reset");
                            ("uid", uid_);
                            ("ip", JStr (ip sock))]]]
          /\ length (calls_to emailer_send t')
             = S (length (calls_to emailer_send t))
          /\ v = JUndefined).
Proof.
  unfold SocketUser.reset.commit. split; [| split].
  - intros Hbad. destruct (not_ data) eqn:Hd; [reflexivity |].
    apply not_truthy in Hd.
    rewrite !(get_prop_truthy data _ Hd). unfold bind, await at 1.
    destruct Hbad as [Hb | [Hb | Hb]]; [congruence | |].
    + apply not_falsy in Hb. now rewrite Hb.
    + destruct (not_ (field data "code")); [reflexivity |].
      unfold await at 1. apply not_falsy in Hb. now rewrite Hb.
  - intros w1 w2 w3 w4 w5 uid_ v2 v3 v4 username Hd Hc Hp E1 E2 E3 E4 E5.
    cbv zeta.
    apply not_truthy in Hc, Hp.
    rewrite (proj2 (not_truthy data) Hd), !(get_prop_truthy data _ Hd).
    unfold bind at 1, await at 1. rewrite Hc.
    unfold bind at 1, await at 1. rewrite Hp.
    js_step. rewrite E1. simpl. rewrite E2. simpl. rewrite E3. simpl.
    rewrite E4. simpl. rewrite E5. simpl.
    destruct (svc emailer_send _ w5) as [r6 w6]. simpl.
    rewrite <- !app_assoc. simpl.
    split; [reflexivity | split; [| split]].
    + rewrite !calls_to_app. simpl. now rewrite ?app_nil_r.
    + rewrite !calls_to_app. simpl. now rewrite ?app_nil_r.
    + intros (Hy & Hm & Hday). split; [lia |].
      destruct (dec_no_leading_zero (getFullYear (new_Date w5)))
        as (cy & sy & Ey & Ny); [lia |].
      destruct (dec_no_leading_zero (getMonth (new_Date w5) + 1))
        as (cm & sm & Em & Nm); [lia |].
      destruct (dec_no_leading_zero (getDate (new_Date w5)))
        as (cd & sd & Ed & Nd); [lia |].
      exists cy, cm, cd, sy, sm, sd. repeat split; assumption.
  - intros v w' t' Hrun.
    destruct (not_ data) eqn:Hd; [discriminate |].
    apply not_truthy in Hd.
    rewrite !(get_prop_truthy data _ Hd) in Hrun.
    unfold bind at 1, await at 1 in Hrun.
    destruct (not_ (field data "code")); [discriminate |].
    unfold bind at 1, await at 1 in Hrun.
    destruct (not_ (field data "password")); [discriminate |].
    js_step.
    destruct (svc db_getObjectField [JStr "reset:uid"; field data "code"] w)
      as [[uid_ | e1] w1]; simpl in *;
      (destruct (svc user_reset_commit _ w1) as [[v2 | e2] w2]; simpl in *);
      (destruct (svc plugins_hooks_fire _ w2) as [[v3 | e3] w3]; simpl in *);
      try discriminate.
    destruct (svc events_log _ w3) as [[v4 | e4] w4]; simpl in *;
      [| discriminate].
    exists uid_.
    destruct (svc user_getUserField [uid_; JStr "username"] w4)
      as [[username | e5] w5] eqn:Eu; simpl in *; [| discriminate].
    exists username, w4. rewrite Eu. simpl.
    destruct (svc emailer_send _ w5) as [r6 w6] eqn:Em; simpl in *.
    inversion Hrun; subst.
    repeat split.
    + unfold commit_trace. rewrite <- !app_assoc. reflexivity.
    + rewrite !calls_to_app. simpl. rewrite !app_nil_r. reflexivity.
    + rewrite !calls_to_app. simpl. rewrite !app_nil_r, !length_app.
      simpl. lia.
Qed.

(** X10: the handler does return when the three sub-actions, the audit write
    and the username lookup fulfil; the outcome of the email is not waited
    for. *)
Lemma reset_commit_returns (sock : socket) (data : value)
    (w w1 w2 w3 w4 w5 : W) (t : trace) (uid_ v2 v3 v4 username : value) :
  truthy data = true ->
  truthy (field data "code") = true ->
  truthy (field data "password") = true ->
  svc db_getObjectField [JStr "reset:uid"; field data "code"] w
  = (Return uid_, w1) ->
  svc user_reset_commit [field data "code"; field data "password"] w1
  = (Return v2, w2) ->
  svc plugins_hooks_fire
    [JStr "action:password.reset"; JObj [("uid", JNum (uid sock))]] w2
  = (Return v3, w3) ->
  svc events_log
    [JObj [("type", JStr "password-reset"); ("uid", uid_);
           ("ip", JStr (ip sock))]] w3
  = (Return v4, w4) ->
  svc user_getUserField [uid_; JStr "username"] w4 = (Return username, w5) ->
  exists w6,
    SocketUser.reset.commit sock data (w, t)
    = (Return JUndefined,
       (w6, t ++ commit_trace sock (field data "code")
                   (field data "password") uid_ username (new_Date w5))).
Proof.
  intros Hd Hc Hp E1 E2 E3 E4 E5.
  unfold SocketUser.reset.commit.
  apply not_truthy in Hc, Hp.
  rewrite (proj2 (not_truthy data) Hd), !(get_prop_truthy data _ Hd).
  unfold bind at 1, await at 1. rewrite Hc.
  unfold bind at 1, await at 1. rewrite Hp.
  js_step. rewrite E1. simpl. rewrite E2. simpl. rewrite E3. simpl.
  rewrite E4. simpl. rewrite E5. simpl.
  destruct (svc emailer_send _ w5) as [r6 w6]. simpl.
  exists w6. unfold commit_trace. rewrite <- !app_assoc. reflexivity.
Qed.

End ResetCommit.

(** A payload without a password; then the pending code [c0de] committed
    on 5 January 2021: the record and the email are for user 7, alice, and
    the date reads 2021/1/5. *)
Lemma reset_commit_audits_and_notifies_witness :
  @SocketUser.reset.commit _ (scripted reset_pending []) guest
    (JObj [("code", JStr "c0de")]) (epoch, [])
  = (Throw InvalidData, (epoch, []))
  /\ @SocketUser.reset.commit _ (scripted reset_pending []) guest
       new_password (epoch, [])
     = (Return JUndefined,
        (epoch,
         [Call db_getObjectField [JStr "reset:uid"; JStr "c0de"];
          Call user_reset_commit [JStr "c0de"; JStr "correct horse"];
          Call plugins_hooks_fire
            [JStr "action:password.reset"; JObj [("uid", JNum 0)]];
          Call events_log
            [JObj [("type", JStr "password-reset"); ("uid", JNum 7);
                   ("ip", JStr "127.0.0.1")]];
          Call user_getUserField [JNum 7; JStr "username"];
          Call emailer_send
            [JStr "reset_notify"; JNum 7;
             JObj [("username", JStr "alice");
                   ("date", JStr "2021/1/5");
                   ("subject", JStr "[[email:reset.notify.subject]]")]]]))
  /\ (exists (uid_ username : value) (now : Date),
        commit_trace guest (JStr "c0de") (JStr "correct horse") (JNum 7)
          (JStr "alice") (today epoch)
        = [] ++ commit_trace guest (JStr "c0de") (JStr "correct horse")
                  uid_ username now)
  /\ parsedDate (today epoch) = "2021/1/5"
  /\ (1 <= 0 + 1 <= 12
      /\ exists (cy cm cd : ascii) (sy sm sd : string),
           dec 2021 = String cy sy /\ cy <> "0"%char
           /\ dec (0 + 1) = String cm sm /\ cm <> "0"%char
           /\ dec 5 = String cd sd /\ cd <> "0"%char).
Proof.
  split; [| split; [| split; [| split]]].
  - apply (proj1 (@reset_commit_audits_and_notifies _
                    (scripted reset_pending []) guest
                    (JObj [("code", JStr "c0de")]) epoch [])).
    right. right. reflexivity.
  - exact (proj1 (proj1 (proj2 (@reset_commit_audits_and_notifies _
                                  (scripted reset_pending []) guest
                                  new_password epoch []))
                    epoch epoch epoch epoch epoch
                    (JNum 7) JUndefined JUndefined JUndefined (JStr "alice")
                    eq_refl eq_refl eq_refl eq_refl eq_refl eq_refl eq_refl
                    eq_refl)).
  - destruct (proj2 (proj2 (@reset_commit_audits_and_notifies _
                              (scripted reset_pending []) guest new_password
                              epoch []))
                JUndefined epoch
                (commit_trace guest (JStr "c0de") (JStr "correct horse")
                   (JNum 7) (JStr "alice") (today epoch))
                eq_refl)
      as (uid_ & username & w4 & _ & _ & _ & Ht & _).
    exists uid_, username, (today w4). exact Ht.
  - reflexivity.
  - apply (proj2 (proj2 (proj2 (proj1 (proj2
             (@reset_commit_audits_and_notifies _
                (scripted reset_pending []) guest new_password epoch []))
             epoch epoch epoch epoch epoch
             (JNum 7) JUndefined JUndefined JUndefined (JStr "alice")
             eq_refl eq_refl eq_refl eq_refl eq_refl eq_refl eq_refl
             eq_refl)))).
    unfold calendar_date. simpl. lia.
Defined.

(** ** Payload objects *)

Lemma lookup_assign_same (k : string) (v : value)
    (props : list (string * value)) :
  lookup k (assign k v props) = v.
Proof.
  induction props as [| [k' v'] rest IH]; simpl.
  - now rewrite String.eqb_refl.
  - destruct (String.eqb k k') eqn:E; simpl.
    + now rewrite String.eqb_refl.
    + now rewrite E.
Qed.

Lemma lookup_assign_other (k k' : string) (v : value)
    (props : list (string * value)) :
  k' <> k -> lookup k' (assign k v props) = lookup k' props.
Proof.
  intros Hne. apply String.eqb_neq in Hne.
  induction props as [| [k0 v0] rest IH]; simpl.
  - now rewrite Hne.
  - destruct (String.eqb k k0) eqn:E; simpl.
    + apply String.eqb_eq in E. subst k0. now rewrite Hne.
    + now rewrite IH.
Qed.

Lemma set_prop_object (o : value) (k : string) (v : value) :
  is_object o = true ->
  exists props,
    o = JObj props /\ set_prop o k v = Return (JObj (assign k v props)).
Proof.
  destruct o; try discriminate. intros _. now exists props.
Qed.

Lemma set_prop_primitive (o : value) (k : string) (v : value) :
  is_object o = false -> exists m, set_prop o k v = Throw (TypeError m).
Proof.
  destruct o; try discriminate; intros _; simpl; eexists; reflexivity.
Qed.

(** ** Consent *)

Section GdprCheck.
Context {W : Type} `{Services W}.

(** C5: when [user.isAdministrator] says the caller is no administrator,
    [gdpr.check] reads the consent field of the caller's own record,
    ['user:' + socket.uid], whatever uid the payload names: the run is one
    and the same for all payload objects, and the only record queried is the
    caller's.  A payload that is not an object makes the override throw a
    TypeError before anything is read. *)
Theorem gdpr_check_reads_own_flag (sock : socket) (w w1 : W) (t : trace)
    (isAdmin : value) :
  svc user_isAdministrator [JNum (uid sock)] w = (Return isAdmin, w1) ->
  truthy isAdmin = false ->
  (forall data : value,
     is_object data = true ->
     SocketUser.gdpr.check sock data (w, t)
     = (fst (svc db_getObjectField
               [JStr ("user:" +s+ dec (uid sock)); JStr "gdpr_consent"] w1),
        (snd (svc db_getObjectField
                [JStr ("user:" +s+ dec (uid sock)); JStr "gdpr_consent"] w1),
         t ++ [Call user_isAdministrator [JNum (uid sock)];
               Call db_getObjectField
                 [JStr ("user:" +s+ dec (uid sock)); JStr "gdpr_consent"]])))
  /\ (forall d1 d2 : value,
        is_object d1 = true -> is_object d2 = true ->
        SocketUser.gdpr.check sock d1 (w, t)
        = SocketUser.gdpr.check sock d2 (w, t))
  /\ (forall data : value,
        is_object data = false ->
        exists m,
          SocketUser.gdpr.check sock data (w, t)
          = (Throw (TypeError m),
             (w1, t ++ [Call user_isAdministrator [JNum (uid sock)]]))).
Proof.
  intros Ea Hna.
  assert (Hobj : forall data : value,
     is_object data = true ->
     SocketUser.gdpr.check sock data (w, t)
     = (fst (svc db_getObjectField
               [JStr ("user:" +s+ dec (uid sock)); JStr "gdpr_consent"] w1),
        (snd (svc db_getObjectField
                [JStr ("user:" +s+ dec (uid sock)); JStr "gdpr_consent"] w1),
         t ++ [Call user_isAdministrator [JNum (uid sock)];
               Call db_getObjectField
                 [JStr ("user:" +s+ dec (uid sock)); JStr "gdpr_consent"]]))).
  { intros data Ho.
    destruct (set_prop_object data "uid" (JNum (uid sock)) Ho)
      as (props & -> & Hs).
    unfold SocketUser.gdpr.check. js_step. rewrite Ea. simpl.
    rewrite Hna. simpl. rewrite lookup_assign_same. simpl.
    destruct (svc db_getObjectField _ w1) as [r w2]. simpl.
    now rewrite <- app_assoc. }
  split; [exact Hobj | split].
  - intros d1 d2 H1 H2. now rewrite (Hobj d1 H1), (Hobj d2 H2).
  - intros data Ho.
    destruct (set_prop_primitive data "uid" (JNum (uid sock)) Ho) as [m Hs].
    exists m. unfold SocketUser.gdpr.check.
    unfold bind at 1, call, bind at 1, start, await at 1. simpl.
    rewrite Ea. unfold bind at 1, not_. rewrite Hna. simpl.
    unfold await. now rewrite Hs.
Qed.

End GdprCheck.

(** Alice, user 7, asks for the flag of user 8 and is given her own. *)
Lemma gdpr_check_reads_own_flag_witness :
  @SocketUser.gdpr.check _ (scripted consents []) alice
    (JObj [("uid", JNum 8)]) (epoch, [])
  = (Return (JNum 1),
     (epoch,
      [Call user_isAdministrator [JNum 7];
       Call db_getObjectField [JStr "user:7"; JStr "gdpr_consent"]])).
Proof.
  apply (proj1 (@gdpr_check_reads_own_flag _ (scripted consents []) alice
                  epoch epoch [] (JBool false) eq_refl eq_refl)
           (JObj [("uid", JNum 8)])).
  reflexivity.
Defined.

(** With an administrator the uid of the payload is the one read. *)
Example gdpr_check_administrator :
  @SocketUser.gdpr.check _ (scripted consents []) root
    (JObj [("uid", JNum 8)]) (epoch, [])
  = (Return (JNum 0),
     (epoch,
      [Call user_isAdministrator [JNum 1];
       Call db_getObjectField [JStr "user:8"; JStr "gdpr_consent"]])).
Proof. reflexivity. Qed.

(** ** Account deletion *)

Section DeleteAccount.
Context {W : Type} `{Services W}.

(** C10: [deleteAccount] writes the session uid into the payload before it
    delegates.  For a payload object the one call to
    [api.users.deleteAccount] receives the session and the payload with its
    [uid] equal to the session uid, every other field as sent, and the
    handler completes as that call does.  For any other payload the write
    throws a TypeError and the delete operation is not called. *)
Theorem deleteAccount_targets_caller (sock : socket) (data : value) (w : W)
    (t : trace) :
  (forall props : list (string * value),
     data = JObj props ->
     let data' := JObj (assign "uid" (JNum (uid sock)) props) in
     field data' "uid" = JNum (uid sock)
     /\ (forall k : string, k <> "uid" -> field data' k = field data k)
     /\ SocketUser.deleteAccount sock data (w, t)
        = (then_undefined
             (fst (svc api_users_deleteAccount [socket_val sock; data'] w)),
           (snd (svc api_users_deleteAccount [socket_val sock; data'] w),
            t ++ [Deprecated sock "DELETE /api/v3/users/:uid/account";
                  Call api_users_deleteAccount [socket_val sock; data']])))
  /\ (is_object data = false ->
      exists m,
        SocketUser.deleteAccount sock data (w, t)
        = (Throw (TypeError m),
           (w, t ++ [Deprecated sock "DELETE /api/v3/users/:uid/account"]))).
Proof.
  split.
  - intros props -> data'. subst data'. unfold field. simpl.
    split; [apply lookup_assign_same | split].
    + intros k Hk. now apply lookup_assign_other.
    + unfold SocketUser.deleteAccount. js_step.
      destruct (svc api_users_deleteAccount _ w) as [[v | e] w1]; simpl;
        now rewrite <- app_assoc.
  - intros Ho.
    destruct (set_prop_primitive data "uid" (JNum (uid sock)) Ho) as [m Hs].
    exists m. unfold SocketUser.deleteAccount.
    unfold bind at 1, warnDeprecated. simpl.
    unfold bind at 1, await. now rewrite Hs.
Qed.

End DeleteAccount.

(** Alice sends the uid of user 8; the delete operation is given uid 7. *)
Lemma deleteAccount_targets_caller_witness :
  field (JObj (assign "uid" (JNum 7) [("uid", JNum 8); ("password", JStr "pw")]))
    "uid" = JNum 7
  /\ @SocketUser.deleteAccount _ (scripted quiet []) alice
       (JObj [("uid", JNum 8); ("password", JStr "pw")]) (epoch, [])
     = (Return JUndefined,
        (epoch,
         [Deprecated alice "DELETE /api/v3/users/:uid/account";
          Call api_users_deleteAccount
            [socket_val alice;
             JObj [("uid", JNum 7); ("password", JStr "pw")]]]))
  /\ (exists m,
        @SocketUser.deleteAccount _ (scripted quiet []) alice JUndefined
          (epoch, [])
        = (Throw (TypeError m),
           (epoch, [Deprecated alice "DELETE /api/v3/users/:uid/account"]))).
Proof.
  pose proof (proj1 (@deleteAccount_targets_caller _ (scripted quiet [])
                       alice
                       (JObj [("uid", JNum 8); ("password", JStr "pw")])
                       epoch [])
                [("uid", JNum 8); ("password", JStr "pw")] eq_refl)
    as (Hu & _ & Hrun).
  split; [exact Hu | split; [exact Hrun |]].
  apply (@deleteAccount_targets_caller _ (scripted quiet []) alice JUndefined
           epoch []).
  reflexivity.
Defined.

(** ** Moderation notes *)

Section ModerationNote.
Context {W : Type} `{Services W}.

(** C6: past validation [setModerationNote] asks [privileges.users.canEdit]
    first.  If that allows, the note is appended and
    [user.isModeratorOfAnyCategory] is not asked.  If it denies, the
    moderator check is asked: if it allows, the note is appended; if it
    denies too, the handler throws no-privileges and nothing is appended.
    An appended note is appended once, signed with the uid of the session
    and stamped with the time the handler read once validation was done. *)
Theorem setModerationNote_authorises (sock : socket) (data : value)
    (w w1 : W) (t : trace) (canEdit : value) :
  uid sock <> 0 ->
  truthy data = true ->
  truthy (field data "uid") = true ->
  truthy (field data "note") = true ->
  svc privileges_users_canEdit [JNum (uid sock); field data "uid"] w
  = (Return canEdit, w1) ->
  (truthy canEdit = true ->
   SocketUser.setModerationNote sock data (w, t)
   = (then_undefined
        (fst (svc user_appendModerationNote
                (moderation_note sock data (Date_now w)) w1)),
      (snd (svc user_appendModerationNote
              (moderation_note sock data (Date_now w)) w1),
       t ++ [Call privileges_users_canEdit
               [JNum (uid sock); field data "uid"];
             Call user_appendModerationNote
               (moderation_note sock data (Date_now w))])))
  /\ (truthy canEdit = false ->
      forall (isMod : value) (w2 : W),
        svc user_isModeratorOfAnyCategory [JNum (uid sock)] w1
        = (Return isMod, w2) ->
        (truthy isMod = true ->
         SocketUser.setModerationNote sock data (w, t)
         = (then_undefined
              (fst (svc user_appendModerationNote
                      (moderation_note sock data (Date_now w)) w2)),
            (snd (svc user_appendModerationNote
                    (moderation_note sock data (Date_now w)) w2),
             t ++ [Call privileges_users_canEdit
                     [JNum (uid sock); field data "uid"];
                   Call user_isModeratorOfAnyCategory [JNum (uid sock)];
                   Call user_appendModerationNote
                     (moderation_note sock data (Date_now w))])))
        /\ (truthy isMod = false ->
            SocketUser.setModerationNote sock data (w, t)
            = (Throw NoPrivileges,
               (w2,
                t ++ [Call privileges_users_canEdit
                        [JNum (uid sock); field data "uid"];
                      Call user_isModeratorOfAnyCategory
                        [JNum (uid sock)]])))).
Proof.
  intros Hu Hd Ht Hn Ec.
  apply not_uid_member in Hu. apply not_truthy in Ht, Hn.
  assert (Hpre : SocketUser.setModerationNote sock data (w, t)
    = (canEdit' <- (if not_ canEdit
                    then call user_isModeratorOfAnyCategory [JNum (uid sock)]
                    else ret canEdit) ;;
       if not_ canEdit' then throw NoPrivileges else
       call user_appendModerationNote
         (moderation_note sock data (Date_now w)) ;;
       ret JUndefined)
        (w1, t ++ [Call privileges_users_canEdit
                     [JNum (uid sock); field data "uid"]])).
  { unfold SocketUser.setModerationNote.
    rewrite Hu, (proj2 (not_truthy data) Hd), !(get_prop_truthy data _ Hd).
    unfold bind at 1, await at 1. rewrite Ht.
    unfold bind at 1, await at 1. rewrite Hn.
    unfold bind at 1, now_ms at 1. simpl fst.
    unfold bind at 1, call at 1, bind at 1, start at 1. simpl fst. simpl snd.
    rewrite Ec. unfold await at 1. reflexivity. }
  rewrite Hpre. clear Hpre. unfold moderation_note.
  split.
  - intros Hc. rewrite (proj2 (not_truthy canEdit) Hc). js_step.
    rewrite Hc. simpl.
    destruct (svc user_appendModerationNote _ w1) as [[v | e] w2]; simpl;
      now rewrite <- app_assoc.
  - intros Hc isMod w2 Em. rewrite (proj2 (not_falsy canEdit) Hc).
    js_step. rewrite Em. simpl. split; intros Hm; rewrite Hm; simpl.
    + destruct (svc user_appendModerationNote _ w2) as [[v | e] w3]; simpl;
        now rewrite <- !app_assoc.
    + now rewrite <- app_assoc.
Qed.

End ModerationNote.

(** Where everybody may edit, alice's note goes in at once; where nobody
    may, alice, a moderator, still gets it in, and bob does not. *)
Lemma setModerationNote_authorises_witness :
  @SocketUser.setModerationNote _ (scripted editors []) alice note_on_8
    (epoch, [])
  = (Return JUndefined,
     (epoch,
      [Call privileges_users_canEdit [JNum 7; JNum 8];
       Call user_appendModerationNote
         (moderation_note alice note_on_8 1600000000000)]))
  /\ @SocketUser.setModerationNote _ (scripted moderators []) alice note_on_8
       (epoch, [])
     = (Return JUndefined,
        (epoch,
         [Call privileges_users_canEdit [JNum 7; JNum 8];
          Call user_isModeratorOfAnyCategory [JNum 7];
          Call user_appendModerationNote
            (moderation_note alice note_on_8 1600000000000)]))
  /\ @SocketUser.setModerationNote _ (scripted moderators []) bob note_on_8
       (epoch, [])
     = (Throw NoPrivileges,
        (epoch,
         [Call privileges_users_canEdit [JNum 9; JNum 8];
          Call user_isModeratorOfAnyCategory [JNum 9]])).
Proof.
  assert (H7 : uid alice <> 0) by (simpl; lia).
  assert (H9 : uid bob <> 0) by (simpl; lia).
  split; [| split].
  - apply (proj1 (@setModerationNote_authorises _ (scripted editors [])
                    alice note_on_8 epoch epoch [] (JBool true)
                    H7 eq_refl eq_refl eq_refl eq_refl)).
    reflexivity.
  - apply (proj1 (proj2 (@setModerationNote_authorises _
                           (scripted moderators []) alice note_on_8
                           epoch epoch [] (JBool false)
                           H7 eq_refl eq_refl eq_refl eq_refl)
                    eq_refl (JBool true) epoch eq_refl)).
    reflexivity.
  - apply (proj2 (proj2 (@setModerationNote_authorises _
                           (scripted moderators []) bob note_on_8
                           epoch epoch [] (JBool false)
                           H9 eq_refl eq_refl eq_refl eq_refl)
                    eq_refl (JBool false) epoch eq_refl)).
    reflexivity.
Defined.

(** ** Unread counts *)

Section UnreadCounts.
Context {W : Type} `{Services W}.

(** C7: for a guest [getUnreadCounts] returns the empty object and calls
    nothing.  For a logged-in session it issues its three queries, each
    whatever the others answer (they are started before any is awaited);
    when they fulfil, the object returned carries
    [unreadTopicCount], [unreadNewTopicCount], [unreadWatchedTopicCount]
    and [unreadUnrepliedTopicCount], the four entries of the answer of
    [topics.getUnreadTids], and [unreadChatCount] and
    [unreadNotificationCount], the answers of the two other queries. *)
Theorem getUnreadCounts_bundle (sock : socket) (w : W) (t : trace) :
  (uid sock = 0 ->
   SocketUser.getUnreadCounts sock (w, t) = (Return (JObj []), (w, t)))
  /\ (uid sock <> 0 ->
      let q1 := svc topics_getUnreadTids
                  [JObj [("uid", JNum (uid sock)); ("count", JBool true)]]
                  w in
      let q2 := svc messaging_getUnreadCount [JNum (uid sock)] (snd q1) in
      let q3 := svc user_notifications_getUnreadCount [JNum (uid sock)]
                  (snd q2) in
      (exists r,
         SocketUser.getUnreadCounts sock (w, t)
         = (r, (snd q3, t ++ unread_queries sock)))
      /\ (forall counts chat notifications : value,
            fst q1 = Return counts ->
            fst q2 = Return chat ->
            fst q3 = Return notifications ->
            nullish counts = false ->
            SocketUser.getUnreadCounts sock (w, t)
            = (Return (unread_bundle counts chat notifications),
               (snd q3, t ++ unread_queries sock))
            /\ field (unread_bundle counts chat notifications)
                 "unreadTopicCount" = field counts ""
            /\ field (unread_bundle counts chat notifications)
                 "unreadNewTopicCount" = field counts "new"
            /\ field (unread_bundle counts chat notifications)
                 "unreadWatchedTopicCount" = field counts "watched"
            /\ field (unread_bundle counts chat notifications)
                 "unreadUnrepliedTopicCount" = field counts "unreplied"
            /\ field (unread_bundle counts chat notifications)
                 "unreadChatCount" = chat
            /\ field (unread_bundle counts chat notifications)
                 "unreadNotificationCount" = notifications)).
Proof.
  unfold SocketUser.getUnreadCounts, unread_queries. split.
  - intros Hg. apply not_uid_guest in Hg. now rewrite Hg.
  - intros Hm. apply not_uid_member in Hm. rewrite Hm.
    cbv zeta.
    unfold SocketUser.unreadCounts_of, promiseParallel. js_step.
    destruct (svc topics_getUnreadTids _ w) as [r1 w1]. simpl.
    destruct (svc messaging_getUnreadCount _ w1) as [r2 w2]. simpl.
    destruct (svc user_notifications_getUnreadCount _ w2) as [r3 w3]. simpl.
    rewrite <- !app_assoc. simpl. split.
    + destruct r1 as [c | e1], r2 as [m | e2], r3 as [n | e3]; simpl;
        try (eexists; reflexivity).
      destruct c; simpl; eexists; reflexivity.
    + intros counts chat notifications -> -> -> Hc.
      split; [| repeat split].
      destruct counts; try discriminate; reflexivity.
Qed.

End UnreadCounts.

(** A guest, and alice with 5 unread topics (2 new, 1 watched, 3 without a
    reply), 4 chat messages and 6 notifications. *)
Lemma getUnreadCounts_bundle_witness :
  @SocketUser.getUnreadCounts _ (scripted unread []) guest (epoch, [])
  = (Return (JObj []), (epoch, []))
  /\ @SocketUser.getUnreadCounts _ (scripted unread []) alice (epoch, [])
     = (Return
          (JObj [("unreadCounts",
                  JObj [("", JNum 5); ("new", JNum 2); ("watched", JNum 1);
                        ("unreplied", JNum 3)]);
                 ("unreadChatCount", JNum 4);
                 ("unreadNotificationCount", JNum 6);
                 ("unreadTopicCount", JNum 5);
                 ("unreadNewTopicCount", JNum 2);
                 ("unreadWatchedTopicCount", JNum 1);
                 ("unreadUnrepliedTopicCount", JNum 3)]),
        (epoch, unread_queries alice)).
Proof.
  assert (H7 : uid alice <> 0) by (simpl; lia).
  split.
  - apply (@getUnreadCounts_bundle _ (scripted unread []) guest epoch []).
    reflexivity.
  - apply (proj2 (proj2 (@getUnreadCounts_bundle _ (scripted unread [])
                           alice epoch []) H7)
             (JObj [("", JNum 5); ("new", JNum 2); ("watched", JNum 1);
                    ("unreplied", JNum 3)])
             (JNum 4) (JNum 6) eq_refl eq_refl eq_refl eq_refl).
Defined.

(** ** Guest sessions *)

Section Guests.
Context {W : Type} `{Services W}.

(** C1 (as amended): with a guest session, [emailConfirm] throws
    no-privileges and [setModerationNote] throws invalid-data, and
    [getUnreadCount], [getUnreadChatCount] and [getUnreadCounts] return 0,
    0 and the empty object, all of them without a call and in the world
    they started from.  The other handlers do not look at the session.
    [follow], [unfollow], [saveSettings], [setTopicSort] and
    [setCategorySort] warn and hand the session to the service they
    delegate to, and complete as it does.  So does [deleteAccount] on a
    payload object; on any other payload its write of the uid throws a
    TypeError after the warning and nothing is called.  [deleteUpload]
    throws invalid-data without a call on a payload that is absent or lacks
    a name or a uid, and otherwise hands uid 0 to [user.deleteUpload] and
    completes as it does.  [gdpr.consent] hands uid 0 to
    [user.setUserField] and completes as it does. *)
Theorem guest_session_outcomes (sock : socket) (w : W) (t : trace) :
  uid sock = 0 ->
  SocketUser.emailConfirm sock (w, t) = (Throw NoPrivileges, (w, t))
  /\ (forall data : value,
        SocketUser.setModerationNote sock data (w, t)
        = (Throw InvalidData, (w, t)))
  /\ SocketUser.getUnreadCount sock (w, t) = (Return (JNum 0), (w, t))
  /\ SocketUser.getUnreadChatCount sock (w, t) = (Return (JNum 0), (w, t))
  /\ SocketUser.getUnreadCounts sock (w, t) = (Return (JObj []), (w, t))
  /\ (forall data : value,
        SocketUser.follow sock data (w, t)
        = (then_undefined
             (fst (svc api_users_follow [socket_val sock; data] w)),
           delegated sock "POST /api/v3/users/follow"
             api_users_follow [socket_val sock; data] w t))
  /\ (forall data : value,
        SocketUser.unfollow sock data (w, t)
        = (then_undefined
             (fst (svc api_users_unfollow [socket_val sock; data] w)),
           delegated sock "DELETE /api/v3/users/unfollow"
             api_users_unfollow [socket_val sock; data] w t))
  /\ (forall data : value,
        SocketUser.saveSettings sock data (w, t)
        = (fst (svc api_users_updateSettings [socket_val sock; data] w),
           delegated sock "PUT /api/v3/users/:uid/settings"
             api_users_updateSettings [socket_val sock; data] w t))
  /\ (forall sort : value,
        let args := [socket_val sock;
                     JObj [("uid", JNum 0);
                           ("setting", JStr "topicPostSort");
                           ("value", sort)]] in
        SocketUser.setTopicSort sock sort (w, t)
        = (then_undefined (fst (svc api_users_updateSetting args w)),
           delegated sock "PUT /api/v3/users/:uid/setting/topicPostSort"
             api_users_updateSetting args w t))
  /\ (forall sort : value,
        let args := [socket_val sock;
                     JObj [("uid", JNum 0);
                           ("setting", JStr "categoryTopicSort");
                           ("value", sort)]] in
        SocketUser.setCategorySort sock sort (w, t)
        = (then_undefined (fst (svc api_users_updateSetting args w)),
           delegated sock "PUT /api/v3/users/:uid/setting/categoryTopicSort"
             api_users_updateSetting args w t))
  /\ (forall props : list (string * value),
        let args := [socket_val sock;
                     JObj (assign "uid" (JNum 0) props)] in
        SocketUser.deleteAccount sock (JObj props) (w, t)
        = (then_undefined (fst (svc api_users_deleteAccount args w)),
           delegated sock "DELETE /api/v3/users/:uid/account"
             api_users_deleteAccount args w t))
  /\ (forall data : value,
        truthy data = true ->
        truthy (field data "name") = true ->
        truthy (field data "uid") = true ->
        let args := [JNum 0; field data "uid"; field data "name"] in
        SocketUser.deleteUpload sock data (w, t)
        = (then_undefined (fst (svc user_deleteUpload args w)),
           (snd (svc user_deleteUpload args w),
            t ++ [Call user_deleteUpload args])))
  /\ (let args := [JNum 0; JStr "gdpr_consent"; JNum 1] in
      SocketUser.gdpr.consent sock (w, t)
      = (then_undefined (fst (svc user_setUserField args w)),
         (snd (svc user_setUserField args w),
          t ++ [Call user_setUserField args])))
  /\ (forall data : value,
        is_object data = false ->
        exists m,
          SocketUser.deleteAccount sock data (w, t)
          = (Throw (TypeError m),
             (w, t ++ [Deprecated sock "DELETE /api/v3/users/:uid/account"])))
  /\ (forall data : value,
        truthy data = false
        \/ truthy (field data "name") = false
        \/ truthy (field data "uid") = false ->
        SocketUser.deleteUpload sock data (w, t)
        = (Throw InvalidData, (w, t))).
Proof.
  intros Hg. pose proof (proj2 (not_uid_guest (uid sock)) Hg) as Hn.
  unfold delegated.
  repeat match goal with |- _ /\ _ => split end.
  - unfold SocketUser.emailConfirm. now rewrite Hn.
  - intros data. unfold SocketUser.setModerationNote. now rewrite Hn.
  - unfold SocketUser.getUnreadCount. now rewrite Hn.
  - unfold SocketUser.getUnreadChatCount. now rewrite Hn.
  - unfold SocketUser.getUnreadCounts. now rewrite Hn.
  - intros data. unfold SocketUser.follow. js_step.
    destruct (svc api_users_follow _ w) as [[v | e] w1]; simpl;
      now rewrite <- app_assoc.
  - intros data. unfold SocketUser.unfollow. js_step.
    destruct (svc api_users_unfollow _ w) as [[v | e] w1]; simpl;
      now rewrite <- app_assoc.
  - intros data. unfold SocketUser.saveSettings. js_step.
    destruct (svc api_users_updateSettings _ w) as [[v | e] w1]; simpl;
      now rewrite <- app_assoc.
  - intros sort. cbv zeta. unfold SocketUser.setTopicSort. rewrite Hg.
    js_step.
    destruct (svc api_users_updateSetting _ w) as [[v | e] w1]; simpl;
      now rewrite <- app_assoc.
  - intros sort. cbv zeta. unfold SocketUser.setCategorySort. rewrite Hg.
    js_step.
    destruct (svc api_users_updateSetting _ w) as [[v | e] w1]; simpl;
      now rewrite <- app_assoc.
  - intros props. cbv zeta. unfold SocketUser.deleteAccount. rewrite Hg.
    js_step.
    destruct (svc api_users_deleteAccount _ w) as [[v | e] w1]; simpl;
      now rewrite <- app_assoc.
  - intros data Hd Hname Huid. cbv zeta. unfold SocketUser.deleteUpload.
    apply not_truthy in Hname, Huid.
    rewrite (proj2 (not_truthy data) Hd), !(get_prop_truthy data _ Hd), Hg.
    unfold bind at 1, await at 1. rewrite Hname.
    unfold bind at 1, await at 1. rewrite Huid.
    js_step.
    now destruct (svc user_deleteUpload _ w) as [[v | e] w1].
  - cbv zeta. unfold SocketUser.gdpr.consent. rewrite Hg. js_step.
    now destruct (svc user_setUserField _ w) as [[v | e] w1].
  - intros data Ho.
    destruct (set_prop_primitive data "uid" (JNum (uid sock)) Ho) as [m Hs].
    exists m. unfold SocketUser.deleteAccount.
    unfold bind at 1, warnDeprecated. simpl.
    unfold bind at 1, await. now rewrite Hs.
  - intros data Hbad. unfold SocketUser.deleteUpload.
    destruct (not_ data) eqn:Hd; [reflexivity |].
    apply not_truthy in Hd. rewrite !(get_prop_truthy data _ Hd).
    unfold bind at 1, await at 1.
    destruct Hbad as [Hb | [Hb | Hb]]; [congruence | |].
    + apply not_falsy in Hb. now rewrite Hb.
    + destruct (not_ (field data "name")); [reflexivity |].
      unfold bind at 1, await at 1. apply not_falsy in Hb. now rewrite Hb.
Qed.

End Guests.

(** A guest asks for a confirmation email, files a moderation note, gives
    consent and deletes an upload. *)
Lemma guest_session_outcomes_witness :
  @SocketUser.emailConfirm _ (scripted quiet []) guest (epoch, [])
  = (Throw NoPrivileges, (epoch, []))
  /\ @SocketUser.setModerationNote _ (scripted quiet []) guest note_on_8
       (epoch, [])
     = (Throw InvalidData, (epoch, []))
  /\ @SocketUser.gdpr.consent _ (scripted quiet []) guest (epoch, [])
     = (Return JUndefined,
        (epoch,
         [Call user_setUserField [JNum 0; JStr "gdpr_consent"; JNum 1]]))
  /\ @SocketUser.deleteUpload _ (scripted quiet []) guest upload_of_8
       (epoch, [])
     = (Return JUndefined,
        (epoch,
         [Call user_deleteUpload
            [JNum 0; JNum 8; JStr "files/avatar.png"]]))
  /\ @SocketUser.deleteAccount _ (scripted quiet []) guest
       (JObj [("password", JStr "pw")]) (epoch, [])
     = (Return JUndefined,
        (epoch,
         [Deprecated guest "DELETE /api/v3/users/:uid/account";
          Call api_users_deleteAccount
            [socket_val guest;
             JObj [("password", JStr "pw"); ("uid", JNum 0)]]]))
  /\ (exists m,
        @SocketUser.deleteAccount _ (scripted quiet []) guest JUndefined
          (epoch, [])
        = (Throw (TypeError m),
           (epoch, [Deprecated guest "DELETE /api/v3/users/:uid/account"])))
  /\ @SocketUser.deleteUpload _ (scripted quiet []) guest
       (JObj [("uid", JNum 8)]) (epoch, [])
     = (Throw InvalidData, (epoch, [])).
Proof.
  pose proof (@guest_session_outcomes _ (scripted quiet []) guest epoch []
                eq_refl)
    as (He & Hn & _ & _ & _ & _ & _ & _ & _ & _ & Hda & Hu & Hc & Hdt & Hui).
  split; [exact He | split; [exact (Hn note_on_8) | split; [exact Hc |]]].
  split; [exact (Hu upload_of_8 eq_refl eq_refl eq_refl) |].
  split; [exact (Hda [("password", JStr "pw")]) |].
  split; [exact (Hdt JUndefined eq_refl) |].
  apply Hui. right. left. reflexivity.
Defined.

(** C1 (as stated) fails: a guest who files a moderation note is turned
    away with invalid-data, not no-privileges, and a guest who gives consent
    or deletes an upload is not turned away by the handler at all, which
    calls the service with uid 0.  Neither handler refuses guests. *)
Lemma guest_not_refused_everywhere :
  fst (@SocketUser.setModerationNote _ (scripted quiet []) guest note_on_8
         (epoch, []))
  = Throw InvalidData
  /\ InvalidData <> NoPrivileges
  /\ @SocketUser.gdpr.consent _ (scripted quiet []) guest (epoch, [])
     = (Return JUndefined,
        (epoch,
         [Call user_setUserField [JNum 0; JStr "gdpr_consent"; JNum 1]]))
  /\ ~ @refuses_guests _ (scripted quiet [])
         (@SocketUser.setModerationNote _ (scripted quiet []))
  /\ ~ @refuses_guests _ (scripted quiet [])
         (fun sock _ => @SocketUser.gdpr.consent _ (scripted quiet []) sock)
  /\ ~ @refuses_guests _ (scripted quiet [])
         (@SocketUser.deleteUpload _ (scripted quiet [])).
Proof.
  split; [reflexivity |].
  split; [discriminate |].
  split; [reflexivity |].
  split; [| split].
  - intros Hr. specialize (Hr guest note_on_8 epoch [] eq_refl).
    discriminate Hr.
  - intros Hr. specialize (Hr guest JUndefined epoch [] eq_refl).
    discriminate Hr.
  - intros Hr. specialize (Hr guest upload_of_8 epoch [] eq_refl).
    discriminate Hr.
Qed.

(** ** Lookups by name and address *)

Lemma get_prop_not_nullish (o : value) (k : string) :
  nullish o = false -> get_prop o k = Return (field o k).
Proof. unfold field. now destruct o. Qed.

Lemma get_prop_nullish (o : value) (k : string) :
  nullish o = true -> exists m, get_prop o k = Throw (TypeError m).
Proof.
  destruct o; try discriminate; intros _; simpl; eexists; reflexivity.
Qed.

Section Existence.
Context {W : Type} `{Services W}.

(** X1: [exists] warns of its deprecation before it looks at the payload: a
    payload that is absent or has no username is refused with invalid-data
    once the warning is out, and nothing is called.  Otherwise the answer of
    [meta.userOrGroupExists] for that username is the answer of the
    handler, whoever asks. *)
Theorem exists_validates (sock : socket) (data : value) (w : W) (t : trace) :
  (truthy data = false \/ truthy (field data "username") = false ->
   SocketUser.exists_ sock data (w, t)
   = (Throw InvalidData,
      (w, t ++ [Deprecated sock
                  "HEAD /api/v3/users/bySlug/:userslug *AND* HEAD /api/v3/groups/:slug"])))
  /\ (truthy data = true ->
      truthy (field data "username") = true ->
      SocketUser.exists_ sock data (w, t)
      = (fst (svc meta_userOrGroupExists [field data "username"] w),
         delegated sock
           "HEAD /api/v3/users/bySlug/:userslug *AND* HEAD /api/v3/groups/:slug"
           meta_userOrGroupExists [field data "username"] w t)).
Proof.
  unfold SocketUser.exists_, delegated. split.
  - intros Hbad. unfold bind at 1, warnDeprecated. simpl fst. simpl snd.
    destruct (not_ data) eqn:Hd; [reflexivity |].
    apply not_truthy in Hd. rewrite (get_prop_truthy data _ Hd).
    destruct Hbad as [Hb | Hb]; [congruence |].
    unfold bind, await. apply not_falsy in Hb. now rewrite Hb.
  - intros Hd Hu. apply not_truthy in Hu.
    rewrite (proj2 (not_truthy data) Hd), (get_prop_truthy data _ Hd).
    unfold bind at 1, warnDeprecated. simpl fst. simpl snd.
    unfold bind at 1, await at 1. rewrite Hu. js_step.
    destruct (svc meta_userOrGroupExists _ w) as [r w1]. simpl.
    now rewrite <- app_assoc.
Qed.

(** X2: [emailExists] refuses a payload that is absent or has no email with
    invalid-data, leaving world and trace as they were; otherwise it
    completes as [user.email.exists] does for that address, and that is the
    only call it makes. *)
Theorem emailExists_validates (sock : socket) (data : value) (w : W)
    (t : trace) :
  (truthy data = false \/ truthy (field data "email") = false ->
   SocketUser.emailExists sock data (w, t) = (Throw InvalidData, (w, t)))
  /\ (truthy data = true ->
      truthy (field data "email") = true ->
      SocketUser.emailExists sock data (w, t)
      = (fst (svc user_email_exists [field data "email"] w),
         (snd (svc user_email_exists [field data "email"] w),
          t ++ [Call user_email_exists [field data "email"]]))).
Proof.
  unfold SocketUser.emailExists. split.
  - intros Hbad. destruct (not_ data) eqn:Hd; [reflexivity |].
    apply not_truthy in Hd. rewrite (get_prop_truthy data _ Hd).
    destruct Hbad as [Hb | Hb]; [congruence |].
    unfold bind, await. apply not_falsy in Hb. now rewrite Hb.
  - intros Hd Hu. apply not_truthy in Hu.
    rewrite (proj2 (not_truthy data) Hd), (get_prop_truthy data _ Hd).
    unfold bind at 1, await at 1. rewrite Hu. js_step.
    now destruct (svc user_email_exists _ w) as [r w1].
Qed.

(** X3: [isFollowing] answers [false] to a guest without reading the payload,
    so even an absent payload does not throw; for a logged-in session an
    absent payload throws a TypeError, a payload without a target uid is
    answered [false], and only a payload with a target reaches
    [user.isFollowing], asked about the session's uid and that target. *)
Theorem isFollowing_short_circuits (sock : socket) (data : value) (w : W)
    (t : trace) :
  (uid sock = 0 ->
   SocketUser.isFollowing sock data (w, t) = (Return (JBool false), (w, t)))
  /\ (uid sock <> 0 ->
      nullish data = true ->
      exists m,
        SocketUser.isFollowing sock data (w, t)
        = (Throw (TypeError m), (w, t)))
  /\ (uid sock <> 0 ->
      nullish data = false ->
      truthy (field data "uid") = false ->
      SocketUser.isFollowing sock data (w, t)
      = (Return (JBool false), (w, t)))
  /\ (uid sock <> 0 ->
      nullish data = false ->
      truthy (field data "uid") = true ->
      SocketUser.isFollowing sock data (w, t)
      = (fst (svc user_isFollowing [JNum (uid sock); field data "uid"] w),
         (snd (svc user_isFollowing [JNum (uid sock); field data "uid"] w),
          t ++ [Call user_isFollowing [JNum (uid sock); field data "uid"]]))).
Proof.
  unfold SocketUser.isFollowing. repeat split.
  - intros Hg. apply not_uid_guest in Hg. now rewrite Hg.
  - intros Hm Hn. apply not_uid_member in Hm. rewrite Hm.
    destruct (get_prop_nullish data "uid" Hn) as [m Hp].
    exists m. unfold bind, await. now rewrite Hp.
  - intros Hm Hn Hu. apply not_uid_member in Hm. rewrite Hm.
    rewrite (get_prop_not_nullish data _ Hn).
    unfold bind, await. apply not_falsy in Hu. now rewrite Hu.
  - intros Hm Hn Hu. apply not_uid_member in Hm. rewrite Hm.
    rewrite (get_prop_not_nullish data _ Hn).
    unfold bind at 1, await at 1. apply not_truthy in Hu. rewrite Hu.
    js_step.
    now destruct (svc user_isFollowing _ w) as [r w1].
Qed.

End Existence.

Lemma exists_validates_witness :
  @SocketUser.exists_ _ (scripted crowded []) guest (JObj []) (epoch, [])
  = (Throw InvalidData,
     (epoch,
      [Deprecated guest
         "HEAD /api/v3/users/bySlug/:userslug *AND* HEAD /api/v3/groups/:slug"]))
  /\ @SocketUser.exists_ _ (scripted crowded []) guest
       (JObj [("username", JStr "alice")]) (epoch, [])
     = (Return (JBool true),
        (epoch,
         [Deprecated guest
            "HEAD /api/v3/users/bySlug/:userslug *AND* HEAD /api/v3/groups/:slug";
          Call meta_userOrGroupExists [JStr "alice"]])).
Proof.
  split.
  - apply (@exists_validates _ (scripted crowded []) guest (JObj [])
             epoch []).
    right. reflexivity.
  - apply (@exists_validates _ (scripted crowded []) guest
             (JObj [("username", JStr "alice")]) epoch []); reflexivity.
Defined.

Lemma emailExists_validates_witness :
  @SocketUser.emailExists _ (scripted crowded []) guest JNull (epoch, [])
  = (Throw InvalidData, (epoch, []))
  /\ @SocketUser.emailExists _ (scripted crowded []) guest
       (JObj [("email", someone)]) (epoch, [])
     = (Return (JBool true),
        (epoch, [Call user_email_exists [someone]])).
Proof.
  split.
  - apply (@emailExists_validates _ (scripted crowded []) guest JNull
             epoch []).
    left. reflexivity.
  - apply (@emailExists_validates _ (scripted crowded []) guest
             (JObj [("email", someone)]) epoch []); reflexivity.
Defined.

(** A guest without a payload, alice without one, alice with an empty one
    and alice asking about user 8. *)
Lemma isFollowing_short_circuits_witness :
  @SocketUser.isFollowing _ (scripted crowded []) guest JUndefined (epoch, [])
  = (Return (JBool false), (epoch, []))
  /\ (exists m,
        @SocketUser.isFollowing _ (scripted crowded []) alice JUndefined
          (epoch, [])
        = (Throw (TypeError m), (epoch, [])))
  /\ @SocketUser.isFollowing _ (scripted crowded []) alice (JObj [])
       (epoch, [])
     = (Return (JBool false), (epoch, []))
  /\ @SocketUser.isFollowing _ (scripted crowded []) alice
       (JObj [("uid", JNum 8)]) (epoch, [])
     = (Return (JBool true),
        (epoch, [Call user_isFollowing [JNum 7; JNum 8]])).
Proof.
  assert (H7 : uid alice <> 0) by (simpl; lia).
  split; [| split; [| split]].
  - apply (proj1 (@isFollowing_short_circuits _ (scripted crowded []) guest
                    JUndefined epoch [])).
    reflexivity.
  - apply (proj1 (proj2 (@isFollowing_short_circuits _ (scripted crowded [])
                           alice JUndefined epoch [])));
      [exact H7 | reflexivity].
  - apply (proj1 (proj2 (proj2 (@isFollowing_short_circuits _
                                  (scripted crowded []) alice (JObj [])
                                  epoch []))));
      [exact H7 | reflexivity | reflexivity].
  - apply (proj2 (proj2 (proj2 (@isFollowing_short_circuits _
                                  (scripted crowded []) alice
                                  (JObj [("uid", JNum 8)]) epoch []))));
      [exact H7 | reflexivity | reflexivity].
Defined.

(** ** Password reset: the paths around the audit write *)

Section ResetSendPaths.
Context {W : Type} `{Services W}.

(** X5: when issuance succeeds but the audit write of the success rejects with
    [e], the catch block takes over: a second audit record is written with
    the message of [e], the cooldown is not taken, and the handler ends as
    after a failed issuance: with the error of the second write if that
    rejects too, normally if the message of [e] is an expected one, with [e]
    otherwise. *)
Theorem reset_send_audit_failure_relogged (sock : socket) (email : value)
    (w w1 w2 : W) (t : trace) (v : value) (e : exn) :
  truthy email = true ->
  truthy (lookup "password:disableEdit" (meta_config w)) = false ->
  svc user_reset_send [email] w = (Return v, w1) ->
  svc events_log (send_audit sock email "[[success:success]]") w1
  = (Throw e, w2) ->
  exists r : outcome value,
    SocketUser.reset.send sock email (w, t)
    = (r,
       (snd (svc events_log (send_audit sock email (message e)) w2),
        t ++ [Call user_reset_send [email];
              Call events_log (send_audit sock email "[[success:success]]");
              Call events_log (send_audit sock email (message e))]))
    /\ match fst (svc events_log (send_audit sock email (message e)) w2) with
       | Throw e' => r = Throw e'
       | Return _ =>
           (expected_failure (message e) -> r = Return JUndefined)
           /\ (~ expected_failure (message e) -> r = Throw e)
       end.
Proof.
  intros He Hc Es El.
  rewrite (reset_send_validated _ _ _ _ He Hc).
  unfold SocketUser.reset.logEvent, send_audit in *. js_step.
  rewrite Es. simpl. rewrite El. simpl.
  match goal with
  | |- context [svc events_log ?a w2] =>
      destruct (svc events_log a w2) as [[v2 | e2] w3]
  end; simpl.
  - destruct (includes SocketUser.reset.internalErrors (message e)) eqn:Hi;
      simpl; eexists; (split; [now rewrite <- !app_assoc |]).
    + split; [reflexivity |]. intros Hn. elim Hn.
      now apply includes_internalErrors.
    + split; [| reflexivity]. intros Hx.
      apply includes_internalErrors in Hx. congruence.
  - eexists. split; [now rewrite <- !app_assoc | reflexivity].
Qed.

End ResetSendPaths.

(** With the audit log down, a successful issuance is logged twice, in
    vain, and the caller is given the error of the log. *)
Lemma reset_send_audit_failure_relogged_witness :
  exists r : outcome value,
    @SocketUser.reset.send _ (scripted logger_down []) alice someone
      (epoch, [])
    = (r,
       (epoch,
        [Call user_reset_send [someone];
         Call events_log (send_audit alice someone "[[success:success]]");
         Call events_log
           (send_audit alice someone "[[error:log-unavailable]]")]))
    /\ r = Throw (Error "[[error:log-unavailable]]").
Proof.
  exact (@reset_send_audit_failure_relogged _ (scripted logger_down [])
           alice someone epoch epoch epoch [] JUndefined
           (Error "[[error:log-unavailable]]")
           eq_refl eq_refl eq_refl eq_refl).
Defined.

(** An unknown address with the audit log down: one attempt to log, and no
    wait. *)
Lemma reset_send_failure_logged_once_witness :
  calls_to events_log
    [Call user_reset_send [someone];
     Call events_log (send_audit alice someone "[[error:invalid-email]]")]
  = calls_to events_log []
      ++ [send_audit alice someone "[[error:invalid-email]]"].
Proof.
  exact (@reset_send_failure_logged_once _
           (scripted unknown_and_unlogged []) alice someone epoch epoch []
           [Call user_reset_send [someone];
            Call events_log
              (send_audit alice someone "[[error:invalid-email]]")]
           (Throw (Error "[[error:log-unavailable]]"))
           (Error "[[error:invalid-email]]")
           eq_refl eq_refl eq_refl eq_refl).
Defined.

Lemma reset_send_failure_skips_cooldown_witness :
  filter is_sleep
    [Call user_reset_send [someone];
     Call events_log (send_audit alice someone "[[error:sendmail-not-found]]")]
  = filter is_sleep [].
Proof.
  exact (@reset_send_failure_skips_cooldown _ (scripted mailer_down [])
           alice someone epoch epoch []
           [Call user_reset_send [someone];
            Call events_log
              (send_audit alice someone "[[error:sendmail-not-found]]")]
           (Throw (Error "[[error:sendmail-not-found]]"))
           (Error "[[error:sendmail-not-found]]")
           eq_refl eq_refl eq_refl eq_refl).
Defined.

Lemma reset_send_success_takes_cooldown_witness :
  @SocketUser.reset.send _ (scripted quiet []) guest someone (epoch, [])
  = (Return JUndefined,
     ({| ms := 1600000002500; today := today epoch |},
      [Call user_reset_send [someone];
       Call events_log (send_audit guest someone "[[success:success]]");
       Sleep 2500])).
Proof.
  exact (@reset_send_success_takes_cooldown _ (scripted quiet []) guest
           someone epoch epoch epoch [] JUndefined JUndefined
           eq_refl eq_refl eq_refl eq_refl).
Defined.

(** ** Password reset: when the commit fails *)

Section ResetCommitPaths.
Context {W : Type} `{Services W}.

(** X8: when one of the three sub-actions of [reset.commit] rejects, the handler
    throws an error one of them rejected with.  All three were started all
    the same, and nothing follows them: no audit record, no username lookup,
    no email. *)
Theorem reset_commit_subaction_failure (sock : socket) (data : value)
    (w : W) (t : trace) :
  truthy data = true ->
  truthy (field data "code") = true ->
  truthy (field data "password") = true ->
  let q1 := svc db_getObjectField [JStr "reset:uid"; field data "code"] w in
  let q2 := svc user_reset_commit [field data "code"; field data "password"]
              (snd q1) in
  let q3 := svc plugins_hooks_fire
              [JStr "action:password.reset"; JObj [("uid", JNum (uid sock))]]
              (snd q2) in
  (exists e, In (Throw e) [fst q1; fst q2; fst q3]) ->
  exists e,
    In (Throw e) [fst q1; fst q2; fst q3]
    /\ SocketUser.reset.commit sock data (w, t)
       = (Throw e,
          (snd q3,
           t ++ [Call db_getObjectField [JStr "reset:uid"; field data "code"];
                 Call user_reset_commit
                   [field data "code"; field data "password"];
                 Call plugins_hooks_fire
                   [JStr "action:password.reset";
                    JObj [("uid", JNum (uid sock))]]])).
Proof.
  intros Hd Hc Hp. cbv zeta. intros [e0 Hin].
  unfold SocketUser.reset.commit.
  apply not_truthy in Hc, Hp.
  rewrite (proj2 (not_truthy data) Hd), !(get_prop_truthy data _ Hd).
  unfold bind at 1, await at 1. rewrite Hc.
  unfold bind at 1, await at 1. rewrite Hp.
  js_step.
  destruct (svc db_getObjectField _ w) as [[v1 | e1] w1]; simpl in *;
    (destruct (svc user_reset_commit _ w1) as [[v2 | e2] w2]; simpl in *);
    (destruct (svc plugins_hooks_fire _ w2) as [[v3 | e3] w3]; simpl in *);
    rewrite <- !app_assoc; simpl;
    try (eexists; split; [| reflexivity]; now auto).
  exfalso. intuition discriminate.
Qed.

(** X9: a commit that throws has sent no email: the notification is the last
    thing the handler does, and it does it only after the sub-actions, the
    audit write and the username lookup have all fulfilled. *)
Theorem reset_commit_failure_sends_no_email (sock : socket) (data : value)
    (w w' : W) (t t' : trace) (e : exn) :
  SocketUser.reset.commit sock data (w, t) = (Throw e, (w', t')) ->
  calls_to emailer_send t' = calls_to emailer_send t.
Proof.
  unfold SocketUser.reset.commit. intros Hrun.
  destruct (not_ data) eqn:Hd; [inversion Hrun; now subst |].
  apply not_truthy in Hd.
  rewrite !(get_prop_truthy data _ Hd) in Hrun.
  unfold bind at 1, await at 1 in Hrun.
  destruct (not_ (field data "code")); [inversion Hrun; now subst |].
  unfold bind at 1, await at 1 in Hrun.
  destruct (not_ (field data "password")); [inversion Hrun; now subst |].
  js_step.
  destruct (svc db_getObjectField _ w) as [[v1 | e1] w1]; simpl in *;
    (destruct (svc user_reset_commit _ w1) as [[v2 | e2] w2]; simpl in *);
    (destruct (svc plugins_hooks_fire _ w2) as [[v3 | e3] w3]; simpl in *);
    try (inversion Hrun; subst; rewrite !calls_to_app; simpl;
         now rewrite !app_nil_r).
  destruct (svc events_log _ w3) as [[v4 | e4] w4]; simpl in *;
    [| inversion Hrun; subst; rewrite !calls_to_app; simpl;
       now rewrite !app_nil_r].
  destruct (svc user_getUserField _ w4) as [[v5 | e5] w5]; simpl in *;
    [| inversion Hrun; subst; rewrite !calls_to_app; simpl;
       now rewrite !app_nil_r].
  destruct (svc emailer_send _ w5) as [r6 w6]; simpl in *. discriminate.
Qed.

End ResetCommitPaths.

(** An expired code: the commit is refused after the three calls. *)
Lemma reset_commit_subaction_failure_witness :
  exists e,
    In (Throw e)
      [Return JUndefined; Throw (Error "[[error:reset-code-not-valid]]");
       Return JUndefined]
    /\ @SocketUser.reset.commit _ (scripted reset_expired []) guest
         new_password (epoch, [])
       = (Throw e,
          (epoch,
           [Call db_getObjectField [JStr "reset:uid"; JStr "c0de"];
            Call user_reset_commit [JStr "c0de"; JStr "correct horse"];
            Call plugins_hooks_fire
              [JStr "action:password.reset"; JObj [("uid", JNum 0)]]])).
Proof.
  apply (@reset_commit_subaction_failure _ (scripted reset_expired []) guest
           new_password epoch [] eq_refl eq_refl eq_refl).
  exists (Error "[[error:reset-code-not-valid]]"). simpl. tauto.
Defined.

Lemma reset_commit_failure_sends_no_email_witness :
  calls_to emailer_send
    [Call db_getObjectField [JStr "reset:uid"; JStr "c0de"];
     Call user_reset_commit [JStr "c0de"; JStr "correct horse"];
     Call plugins_hooks_fire
       [JStr "action:password.reset"; JObj [("uid", JNum 0)]]]
  = calls_to emailer_send [].
Proof.
  exact (@reset_commit_failure_sends_no_email _ (scripted reset_expired [])
           guest new_password epoch epoch []
           [Call db_getObjectField [JStr "reset:uid"; JStr "c0de"];
            Call user_reset_commit [JStr "c0de"; JStr "correct horse"];
            Call plugins_hooks_fire
              [JStr "action:password.reset"; JObj [("uid", JNum 0)]]]
           (Error "[[error:reset-code-not-valid]]") eq_refl).
Defined.

(** The emailer rejects, and the commit returns all the same. *)
Lemma reset_commit_returns_witness :
  exists w6,
    @SocketUser.reset.commit _ (scripted reset_pending_no_mail []) guest
      new_password (epoch, [])
    = (Return JUndefined,
       (w6,
        [] ++ commit_trace guest (JStr "c0de") (JStr "correct horse")
                (JNum 7) (JStr "alice") (today epoch)))
  /\ fst (@svc _ (scripted reset_pending_no_mail []) emailer_send [] epoch)
     = Throw (Error "[[error:sendmail-not-found]]").
Proof.
  destruct (@reset_commit_returns _ (scripted reset_pending_no_mail [])
              guest new_password epoch epoch epoch epoch epoch epoch []
              (JNum 7) JUndefined JUndefined JUndefined (JStr "alice")
              eq_refl eq_refl eq_refl eq_refl eq_refl eq_refl eq_refl
              eq_refl) as [w6 Hrun].
  exists w6. split; [exact Hrun | reflexivity].
Defined.

(** ** Moderation notes: validation and failing checks *)

Section ModerationNotePaths.
Context {W : Type} `{Services W}.

(** X13: whatever the session, a payload that is absent, or names no
    target uid, or carries no note, is refused with invalid-data, the world
    and the trace left as they were: no privilege is looked up and nothing
    is appended. *)
Theorem setModerationNote_validates (sock : socket) (data : value) (w : W)
    (t : trace) :
  truthy data = false
  \/ truthy (field data "uid") = false
  \/ truthy (field data "note") = false ->
  SocketUser.setModerationNote sock data (w, t)
  = (Throw InvalidData, (w, t)).
Proof.
  intros Hbad. unfold SocketUser.setModerationNote.
  destruct (not_ (JNum (uid sock))); [reflexivity |].
  destruct (not_ data) eqn:Hd; [reflexivity |].
  apply not_truthy in Hd. rewrite !(get_prop_truthy data _ Hd).
  unfold bind at 1, await at 1.
  destruct Hbad as [Hb | [Hb | Hb]]; [congruence | |].
  - apply not_falsy in Hb. now rewrite Hb.
  - destruct (not_ (field data "uid")); [reflexivity |].
    unfold bind at 1, await at 1. apply not_falsy in Hb. now rewrite Hb.
Qed.

(** Past validation the handler is its two checks and the append. *)
Lemma setModerationNote_validated (sock : socket) (data : value) (w : W)
    (t : trace) :
  uid sock <> 0 ->
  truthy data = true ->
  truthy (field data "uid") = true ->
  truthy (field data "note") = true ->
  SocketUser.setModerationNote sock data (w, t)
  = (canEdit <- call privileges_users_canEdit
                  [JNum (uid sock); field data "uid"] ;;
     canEdit <- (if not_ canEdit
                 then call user_isModeratorOfAnyCategory [JNum (uid sock)]
                 else ret canEdit) ;;
     if not_ canEdit then throw NoPrivileges else
     call user_appendModerationNote
       (moderation_note sock data (Date_now w)) ;;
     ret JUndefined) (w, t).
Proof.
  intros Hu Hd Ht Hn.
  apply not_uid_member in Hu. apply not_truthy in Ht, Hn.
  unfold SocketUser.setModerationNote.
  rewrite Hu, (proj2 (not_truthy data) Hd), !(get_prop_truthy data _ Hd).
  unfold bind at 1, await at 1. rewrite Ht.
  unfold bind at 1, await at 1. rewrite Hn.
  unfold bind at 1, now_ms at 1. reflexivity.
Qed.

(** X14: a privilege check that fails is not a denial.  If
    [privileges.users.canEdit] rejects, the handler throws that error
    without asking the moderator check; if the moderator check rejects
    after a denial, the handler throws that error.  No note is appended in
    either case. *)
Theorem setModerationNote_check_failure (sock : socket) (data : value)
    (w : W) (t : trace) :
  uid sock <> 0 ->
  truthy data = true ->
  truthy (field data "uid") = true ->
  truthy (field data "note") = true ->
  let q := svc privileges_users_canEdit [JNum (uid sock); field data "uid"]
             w in
  (forall e, fst q = Throw e ->
     SocketUser.setModerationNote sock data (w, t)
     = (Throw e,
        (snd q,
         t ++ [Call privileges_users_canEdit
                 [JNum (uid sock); field data "uid"]])))
  /\ (forall canEdit e,
        fst q = Return canEdit ->
        truthy canEdit = false ->
        fst (svc user_isModeratorOfAnyCategory [JNum (uid sock)] (snd q))
        = Throw e ->
        SocketUser.setModerationNote sock data (w, t)
        = (Throw e,
           (snd (svc user_isModeratorOfAnyCategory [JNum (uid sock)] (snd q)),
            t ++ [Call privileges_users_canEdit
                    [JNum (uid sock); field data "uid"];
                  Call user_isModeratorOfAnyCategory [JNum (uid sock)]]))).
Proof.
  intros Hu Hd Ht Hn. cbv zeta.
  rewrite (setModerationNote_validated _ _ _ _ Hu Hd Ht Hn).
  unfold moderation_note. js_step.
  destruct (svc privileges_users_canEdit _ w) as [r1 w1]. simpl. split.
  - intros e ->. reflexivity.
  - intros canEdit e -> Hc. simpl. rewrite Hc. simpl.
    destruct (svc user_isModeratorOfAnyCategory _ w1) as [r2 w2]. simpl.
    intros ->. simpl. now rewrite <- app_assoc.
Qed.

(** X15: whatever the session, the payload and the world, a run of
    [setModerationNote] that has called [user.appendModerationNote] has
    called it once, for a logged-in session, with the note of the payload
    signed by the session, and after one of the two checks fulfilled with a
    truthy answer. *)
Theorem setModerationNote_appends_only_if_allowed (sock : socket)
    (data : value) (w w' : W) (t t' : trace) (r : outcome value) :
  SocketUser.setModerationNote sock data (w, t) = (r, (w', t')) ->
  calls_to user_appendModerationNote t'
  <> calls_to user_appendModerationNote t ->
  let q := svc privileges_users_canEdit [JNum (uid sock); field data "uid"]
             w in
  uid sock <> 0
  /\ calls_to user_appendModerationNote t'
     = calls_to user_appendModerationNote t
         ++ [moderation_note sock data (Date_now w)]
  /\ exists allow : value,
       truthy allow = true
       /\ (fst q = Return allow
           \/ fst (svc user_isModeratorOfAnyCategory [JNum (uid sock)]
                     (snd q))
              = Return allow).
Proof.
  unfold SocketUser.setModerationNote, moderation_note. intros Hrun Hne.
  cbv zeta.
  destruct (not_ (JNum (uid sock))) eqn:Hu;
    [inversion Hrun; subst; now elim Hne |].
  apply not_uid_member in Hu. split; [exact Hu |].
  destruct (not_ data) eqn:Hd; [inversion Hrun; subst; now elim Hne |].
  apply not_truthy in Hd. rewrite !(get_prop_truthy data _ Hd) in Hrun.
  unfold bind at 1, await at 1 in Hrun.
  destruct (not_ (field data "uid"));
    [inversion Hrun; subst; now elim Hne |].
  unfold bind at 1, await at 1 in Hrun.
  destruct (not_ (field data "note"));
    [inversion Hrun; subst; now elim Hne |].
  js_step.
  destruct (svc privileges_users_canEdit _ w) as [[c | e1] w1]; simpl in *.
  2: { inversion Hrun; subst. exfalso. apply Hne.
       rewrite calls_to_app. simpl. now rewrite app_nil_r. }
  destruct (truthy c) eqn:Hc; simpl in *.
  - rewrite Hc in Hrun. simpl in Hrun.
    destruct (svc user_appendModerationNote _ w1) as [[v | e] w2];
      simpl in *; inversion Hrun; subst;
      (split; [rewrite !calls_to_app; simpl; now rewrite !app_nil_r |]);
      exists c; auto.
  - destruct (svc user_isModeratorOfAnyCategory _ w1) as [[m | e2] w2];
      simpl in *.
    2: { inversion Hrun; subst. exfalso. apply Hne.
         rewrite !calls_to_app. simpl. now rewrite !app_nil_r. }
    destruct (truthy m) eqn:Hm; simpl in *.
    + destruct (svc user_appendModerationNote _ w2) as [[v | e] w3];
        simpl in *; inversion Hrun; subst;
        (split; [rewrite !calls_to_app; simpl; now rewrite !app_nil_r |]);
        exists m; auto.
    + inversion Hrun; subst. exfalso. apply Hne.
      rewrite !calls_to_app. simpl. now rewrite !app_nil_r.
Qed.

End ModerationNotePaths.

Lemma setModerationNote_validates_witness :
  @SocketUser.setModerationNote _ (scripted editors []) alice
    (JObj [("uid", JNum 8); ("note", JStr "")]) (epoch, [])
  = (Throw InvalidData, (epoch, [])).
Proof.
  apply (@setModerationNote_validates _ (scripted editors []) alice
           (JObj [("uid", JNum 8); ("note", JStr "")]) epoch []).
  right. right. reflexivity.
Defined.

(** With the privilege lookup down, alice, although a moderator, is given
    the error of the lookup. *)
Lemma setModerationNote_check_failure_witness :
  @SocketUser.setModerationNote _ (scripted acl_down []) alice note_on_8
    (epoch, [])
  = (Throw (Error "[[error:acl-unavailable]]"),
     (epoch, [Call privileges_users_canEdit [JNum 7; JNum 8]])).
Proof.
  assert (H7 : uid alice <> 0) by (simpl; lia).
  apply (proj1 (@setModerationNote_check_failure _ (scripted acl_down [])
                  alice note_on_8 epoch [] H7 eq_refl eq_refl eq_refl)).
  reflexivity.
Defined.

Lemma setModerationNote_appends_only_if_allowed_witness :
  uid alice <> 0
  /\ [moderation_note alice note_on_8 1600000000000]
     = [] ++ [moderation_note alice note_on_8 1600000000000]
  /\ exists allow : value,
       truthy allow = true
       /\ (Return (JBool false) = Return allow
           \/ Return (JBool true) = Return allow).
Proof.
  apply (@setModerationNote_appends_only_if_allowed _ (scripted moderators [])
           alice note_on_8 epoch epoch []
           [Call privileges_users_canEdit [JNum 7; JNum 8];
            Call user_isModeratorOfAnyCategory [JNum 7];
            Call user_appendModerationNote
              (moderation_note alice note_on_8 1600000000000)]
           (Return JUndefined) eq_refl).
  simpl. discriminate.
Defined.

(** ** Uploads *)

Section DeleteUpload.
Context {W : Type} `{Services W}.

(** X16: [deleteUpload] refuses a payload that is absent or lacks a name or a
    uid with invalid-data, whatever the session, with nothing called.  With
    both present it calls [user.deleteUpload] once, the uid of the session
    first, then the uid and the name of the payload, and completes as that
    call does: who asks is taken from the session, never from the
    payload. *)
Theorem deleteUpload_validates (sock : socket) (data : value) (w : W)
    (t : trace) :
  (truthy data = false
   \/ truthy (field data "name") = false
   \/ truthy (field data "uid") = false ->
   SocketUser.deleteUpload sock data (w, t) = (Throw InvalidData, (w, t)))
  /\ (truthy data = true ->
      truthy (field data "name") = true ->
      truthy (field data "uid") = true ->
      let args := [JNum (uid sock); field data "uid"; field data "name"] in
      SocketUser.deleteUpload sock data (w, t)
      = (then_undefined (fst (svc user_deleteUpload args w)),
         (snd (svc user_deleteUpload args w),
          t ++ [Call user_deleteUpload args]))).
Proof.
  unfold SocketUser.deleteUpload. split.
  - intros Hbad. destruct (not_ data) eqn:Hd; [reflexivity |].
    apply not_truthy in Hd. rewrite !(get_prop_truthy data _ Hd).
    unfold bind at 1, await at 1.
    destruct Hbad as [Hb | [Hb | Hb]]; [congruence | |].
    + apply not_falsy in Hb. now rewrite Hb.
    + destruct (not_ (field data "name")); [reflexivity |].
      unfold bind at 1, await at 1. apply not_falsy in Hb. now rewrite Hb.
  - intros Hd Hname Huid. cbv zeta. apply not_truthy in Hname, Huid.
    rewrite (proj2 (not_truthy data) Hd), !(get_prop_truthy data _ Hd).
    unfold bind at 1, await at 1. rewrite Hname.
    unfold bind at 1, await at 1. rewrite Huid.
    js_step.
    now destruct (svc user_deleteUpload _ w) as [[v | e] w1].
Qed.

End DeleteUpload.

Lemma deleteUpload_validates_witness :
  @SocketUser.deleteUpload _ (scripted quiet []) alice
    (JObj [("uid", JNum 8)]) (epoch, [])
  = (Throw InvalidData, (epoch, []))
  /\ @SocketUser.deleteUpload _ (scripted quiet []) alice upload_of_8
       (epoch, [])
     = (Return JUndefined,
        (epoch,
         [Call user_deleteUpload [JNum 7; JNum 8; JStr "files/avatar.png"]])).
Proof.
  split.
  - apply (proj1 (@deleteUpload_validates _ (scripted quiet []) alice
                    (JObj [("uid", JNum 8)]) epoch [])).
    right. left. reflexivity.
  - apply (proj2 (@deleteUpload_validates _ (scripted quiet []) alice
                    upload_of_8 epoch [])); reflexivity.
Defined.

(** ** Consent, read by an administrator *)

Section GdprCheckAdmin.
Context {W : Type} `{Services W}.

(** X17: for a caller [user.isAdministrator] vouches for, [gdpr.check] reads
    the consent field of the record the payload names, ['user:' + data.uid],
    where that uid is a string, an exactly held integer, a boolean, [null]
    or absent (the key is then [user:undefined]); an absent payload throws
    a TypeError after the administrator check.  When the administrator
    check itself rejects, the handler throws that error and reads
    nothing. *)
Theorem gdpr_check_administrator_reads_target (sock : socket) (data : value)
    (w : W) (t : trace) :
  let q := svc user_isAdministrator [JNum (uid sock)] w in
  (forall isAdmin,
     fst q = Return isAdmin ->
     truthy isAdmin = true ->
     nullish data = false ->
     rendered_plainly (field data "uid") ->
     let args := [JStr ("user:" +s+ to_string (field data "uid"));
                  JStr "gdpr_consent"] in
     SocketUser.gdpr.check sock data (w, t)
     = (fst (svc db_getObjectField args (snd q)),
        (snd (svc db_getObjectField args (snd q)),
         t ++ [Call user_isAdministrator [JNum (uid sock)];
               Call db_getObjectField args])))
  /\ (forall isAdmin,
        fst q = Return isAdmin ->
        truthy isAdmin = true ->
        nullish data = true ->
        exists m,
          SocketUser.gdpr.check sock data (w, t)
          = (Throw (TypeError m),
             (snd q, t ++ [Call user_isAdministrator [JNum (uid sock)]])))
  /\ (forall e,
        fst q = Throw e ->
        SocketUser.gdpr.check sock data (w, t)
        = (Throw e,
           (snd q, t ++ [Call user_isAdministrator [JNum (uid sock)]]))).
Proof.
  cbv zeta. unfold SocketUser.gdpr.check. js_step.
  destruct (svc user_isAdministrator _ w) as [r1 w1]. simpl.
  split; [| split].
  - intros isAdmin -> Ha Hn _. simpl. rewrite Ha. simpl.
    destruct data; try discriminate; simpl;
      (destruct (svc db_getObjectField _ w1) as [r2 w2]); simpl;
      now rewrite <- app_assoc.
  - intros isAdmin -> Ha Hn. simpl. rewrite Ha. simpl.
    destruct data; try discriminate; simpl; eexists; reflexivity.
  - intros e ->. reflexivity.
Qed.

End GdprCheckAdmin.

(** The administrator reads the flag of user 8, and with an empty payload
    asks for the record [user:undefined]. *)
Lemma gdpr_check_administrator_reads_target_witness :
  @SocketUser.gdpr.check _ (scripted consents []) root
    (JObj [("uid", JNum 8)]) (epoch, [])
  = (Return (JNum 0),
     (epoch,
      [Call user_isAdministrator [JNum 1];
       Call db_getObjectField [JStr "user:8"; JStr "gdpr_consent"]]))
  /\ @SocketUser.gdpr.check _ (scripted consents []) root (JObj [])
       (epoch, [])
     = (Return JUndefined,
        (epoch,
         [Call user_isAdministrator [JNum 1];
          Call db_getObjectField
            [JStr "user:undefined"; JStr "gdpr_consent"]]))
  /\ (exists m,
        @SocketUser.gdpr.check _ (scripted consents []) root JUndefined
          (epoch, [])
        = (Throw (TypeError m),
           (epoch, [Call user_isAdministrator [JNum 1]]))).
Proof.
  split; [| split].
  - apply (proj1 (@gdpr_check_administrator_reads_target _
                    (scripted consents []) root (JObj [("uid", JNum 8)])
                    epoch []) (JBool true));
      [reflexivity | reflexivity | reflexivity | simpl; lia].
  - apply (proj1 (@gdpr_check_administrator_reads_target _
                    (scripted consents []) root (JObj []) epoch [])
             (JBool true));
      [reflexivity | reflexivity | reflexivity | exact I].
  - apply (proj1 (proj2 (@gdpr_check_administrator_reads_target _
                           (scripted consents []) root JUndefined epoch []))
             (JBool true)); reflexivity.
Defined.

(** ** Unread counts: rejections and agreement *)

Section UnreadPaths.
Context {W : Type} `{Services W}.

(** X18: for a logged-in session, when one of the three queries of
    [getUnreadCounts] rejects, the handler throws an error one of them
    rejected with, all three having been issued; and when they all fulfil
    but the topic engine answers [undefined] or [null], reading the first
    category out of that answer throws a TypeError. *)
Theorem getUnreadCounts_rejections (sock : socket) (w : W) (t : trace) :
  uid sock <> 0 ->
  let q1 := svc topics_getUnreadTids
              [JObj [("uid", JNum (uid sock)); ("count", JBool true)]] w in
  let q2 := svc messaging_getUnreadCount [JNum (uid sock)] (snd q1) in
  let q3 := svc user_notifications_getUnreadCount [JNum (uid sock)]
              (snd q2) in
  ((exists e, In (Throw e) [fst q1; fst q2; fst q3]) ->
   exists e,
     In (Throw e) [fst q1; fst q2; fst q3]
     /\ SocketUser.getUnreadCounts sock (w, t)
        = (Throw e, (snd q3, t ++ unread_queries sock)))
  /\ (forall counts chat notifications : value,
        fst q1 = Return counts ->
        fst q2 = Return chat ->
        fst q3 = Return notifications ->
        nullish counts = true ->
        exists m,
          SocketUser.getUnreadCounts sock (w, t)
          = (Throw (TypeError m), (snd q3, t ++ unread_queries sock))).
Proof.
  intros Hm. apply not_uid_member in Hm. cbv zeta.
  unfold SocketUser.getUnreadCounts, unread_queries. rewrite Hm.
  unfold SocketUser.unreadCounts_of, promiseParallel. js_step.
  destruct (svc topics_getUnreadTids _ w) as [r1 w1]. simpl.
  destruct (svc messaging_getUnreadCount _ w1) as [r2 w2]. simpl.
  destruct (svc user_notifications_getUnreadCount _ w2) as [r3 w3]. simpl.
  rewrite <- !app_assoc. simpl. split.
  - intros [e0 Hin].
    destruct r1 as [c | e1], r2 as [m | e2], r3 as [n | e3]; simpl in *;
      try (eexists; split; [| reflexivity]; now auto).
    exfalso. intuition discriminate.
  - intros counts chat notifications -> -> -> Hc.
    destruct counts; try discriminate; simpl; eexists; reflexivity.
Qed.

(** X19: the chat count of the bundle and the chat count asked for alone are
    the same query.  For a logged-in session, when
    [messaging.getUnreadCount] answers after the topic query of the bundle
    as it answers before it, a bundle that [getUnreadCounts] returns
    carries under [unreadChatCount] what [getUnreadChatCount] returns.  For
    a guest the two differ: the bundle has no such field, the single query
    answers 0. *)
Theorem unread_chat_count_agrees (sock : socket) (w w' : W) (t t' : trace)
    (bundle : value) :
  fst (svc messaging_getUnreadCount [JNum (uid sock)] w)
  = fst (svc messaging_getUnreadCount [JNum (uid sock)]
           (snd (svc topics_getUnreadTids
                   [JObj [("uid", JNum (uid sock)); ("count", JBool true)]]
                   w))) ->
  SocketUser.getUnreadCounts sock (w, t) = (Return bundle, (w', t')) ->
  (uid sock <> 0 ->
   fst (SocketUser.getUnreadChatCount sock (w, t))
   = Return (field bundle "unreadChatCount"))
  /\ (uid sock = 0 ->
      field bundle "unreadChatCount" = JUndefined
      /\ fst (SocketUser.getUnreadChatCount sock (w, t)) = Return (JNum 0)).
Proof.
  intros Hpure Hrun. split.
  - intros Hm. apply not_uid_member in Hm.
    unfold SocketUser.getUnreadCounts in Hrun.
    unfold SocketUser.getUnreadChatCount. rewrite Hm in *.
    unfold SocketUser.unreadCounts_of, promiseParallel in Hrun. js_step.
    destruct (svc topics_getUnreadTids _ w) as [r1 w1]. simpl in *.
    destruct (svc messaging_getUnreadCount _ w1) as [r2 w2]. simpl in *.
    destruct (svc user_notifications_getUnreadCount _ w2) as [r3 w3].
    simpl in *.
    destruct (svc messaging_getUnreadCount _ w) as [r0 w0]. simpl in *.
    subst r0.
    destruct r1 as [c | e1], r2 as [m | e2], r3 as [n | e3]; simpl in *;
      try discriminate.
    destruct c; simpl in *; try discriminate; inversion Hrun; reflexivity.
  - intros Hg. apply not_uid_guest in Hg.
    unfold SocketUser.getUnreadCounts in Hrun.
    unfold SocketUser.getUnreadChatCount. rewrite Hg in *.
    inversion Hrun. split; reflexivity.
Qed.

End UnreadPaths.

(** A topic engine that answers [null]. *)
Lemma getUnreadCounts_rejections_witness :
  exists m,
    @SocketUser.getUnreadCounts _ (scripted no_counts []) alice (epoch, [])
    = (Throw (TypeError m), (epoch, [] ++ unread_queries alice)).
Proof.
  assert (H7 : uid alice <> 0) by (simpl; lia).
  apply (proj2 (@getUnreadCounts_rejections _ (scripted no_counts []) alice
                  epoch [] H7)
           JNull (JNum 0) (JNum 0)); reflexivity.
Defined.

Lemma unread_chat_count_agrees_witness :
  fst (@SocketUser.getUnreadChatCount _ (scripted unread []) alice
         (epoch, []))
  = Return (JNum 4).
Proof.
  assert (H7 : uid alice <> 0) by (simpl; lia).
  apply (proj1 (@unread_chat_count_agrees _ (scripted unread []) alice
                  epoch epoch [] (unread_queries alice)
                  (unread_bundle
                     (JObj [("", JNum 5); ("new", JNum 2);
                            ("watched", JNum 1); ("unreplied", JNum 3)])
                     (JNum 4) (JNum 6))
                  eq_refl eq_refl)).
  exact H7.
Defined.

(** ** The deprecated wrappers *)

Section Wrappers.
Context {W : Type} `{Services W}.

(** X20: whatever the session, each of [follow], [unfollow], [saveSettings],
    [setTopicSort] and [setCategorySort] warns of its deprecation and then
    makes one call, handing over the session.  The sort setters name the
    uid of the session as the user whose setting is written.
    [saveSettings] returns what the service fulfils with; the others return
    nothing; a rejection is thrown on as it is. *)
Theorem deprecated_wrappers_delegate (sock : socket) (arg : value) (w : W)
    (t : trace) :
  SocketUser.follow sock arg (w, t)
  = (then_undefined (fst (svc api_users_follow [socket_val sock; arg] w)),
     delegated sock "POST /api/v3/users/follow"
       api_users_follow [socket_val sock; arg] w t)
  /\ SocketUser.unfollow sock arg (w, t)
     = (then_undefined
          (fst (svc api_users_unfollow [socket_val sock; arg] w)),
        delegated sock "DELETE /api/v3/users/unfollow"
          api_users_unfollow [socket_val sock; arg] w t)
  /\ SocketUser.saveSettings sock arg (w, t)
     = (fst (svc api_users_updateSettings [socket_val sock; arg] w),
        delegated sock "PUT /api/v3/users/:uid/settings"
          api_users_updateSettings [socket_val sock; arg] w t)
  /\ (let args := [socket_val sock;
                   JObj [("uid", JNum (uid sock));
                         ("setting", JStr "topicPostSort");
                         ("value", arg)]] in
      SocketUser.setTopicSort sock arg (w, t)
      = (then_undefined (fst (svc api_users_updateSetting args w)),
         delegated sock "PUT /api/v3/users/:uid/setting/topicPostSort"
           api_users_updateSetting args w t))
  /\ (let args := [socket_val sock;
                   JObj [("uid", JNum (uid sock));
                         ("setting", JStr "categoryTopicSort");
                         ("value", arg)]] in
      SocketUser.setCategorySort sock arg (w, t)
      = (then_undefined (fst (svc api_users_updateSetting args w)),
         delegated sock "PUT /api/v3/users/:uid/setting/categoryTopicSort"
           api_users_updateSetting args w t)).
Proof.
  unfold delegated. cbv zeta.
  repeat match goal with |- _ /\ _ => split end.
  - unfold SocketUser.follow. js_step.
    destruct (svc api_users_follow _ w) as [[v | e] w1]; simpl;
      now rewrite <- app_assoc.
  - unfold SocketUser.unfollow. js_step.
    destruct (svc api_users_unfollow _ w) as [[v | e] w1]; simpl;
      now rewrite <- app_assoc.
  - unfold SocketUser.saveSettings. js_step.
    destruct (svc api_users_updateSettings _ w) as [[v | e] w1]; simpl;
      now rewrite <- app_assoc.
  - unfold SocketUser.setTopicSort. js_step.
    destruct (svc api_users_updateSetting _ w) as [[v | e] w1]; simpl;
      now rewrite <- app_assoc.
  - unfold SocketUser.setCategorySort. js_step.
    destruct (svc api_users_updateSetting _ w) as [[v | e] w1]; simpl;
      now rewrite <- app_assoc.
Qed.

End Wrappers.

(** ** The date of the notification *)

Lemma uint_slash_free (d : Decimal.uint) :
  slash_free (NilEmpty.string_of_uint d).
Proof.
  induction d; simpl; try split; auto; discriminate.
Qed.

Lemma dec_slash_free (n : Z) : slash_free (dec n).
Proof.
  unfold dec, NilZero.string_of_int, NilZero.string_of_uint.
  destruct (Z.to_int n) as [d | d]; destruct d; simpl;
    repeat split; try discriminate; apply uint_slash_free.
Qed.

Lemma dec_injective (n m : Z) : dec n = dec m -> n = m.
Proof.
  unfold dec. intros Heq.
  assert (Hnn : forall z, Z.to_int z <> Decimal.Pos Decimal.Nil
                          /\ Z.to_int z <> Decimal.Neg Decimal.Nil).
  { intros [| p | p]; simpl; split; try discriminate;
      intros Hp; injection Hp as Hp;
      now apply DecimalPos.Unsigned.to_uint_nonnil in Hp. }
  pose proof (NilZero.isi (Z.to_int n) (proj1 (Hnn n)) (proj2 (Hnn n))) as H1.
  pose proof (NilZero.isi (Z.to_int m) (proj1 (Hnn m)) (proj2 (Hnn m))) as H2.
  rewrite Heq, H2 in H1. injection H1 as H1.
  rewrite <- (DecimalZ.of_to n), <- (DecimalZ.of_to m). now rewrite H1.
Qed.

(** A string without a slash, followed by a slash, is read back in one way
    only. *)
Lemma slash_splits (a a' b b' : string) :
  slash_free a -> slash_free a' ->
  a +s+ String "/" b = a' +s+ String "/" b' -> a = a' /\ b = b'.
Proof.
  revert a'. induction a as [| c a IH]; intros [| c' a'] Ha Ha' Heq;
    simpl in *.
  - injection Heq as ->. now split.
  - injection Heq as Hc _. destruct Ha' as [Hs _]. now elim Hs.
  - injection Heq as Hc _. destruct Ha as [Hs _]. now elim Hs.
  - injection Heq as -> Heq. destruct Ha as [_ Ha], Ha' as [_ Ha'].
    destruct (IH a' Ha Ha' Heq) as [-> ->]. now split.
Qed.

(** X11: the date string of the notification tells the date: two readings of the
    calendar that are rendered alike are the same year, month and day. *)
Theorem parsedDate_injective (d1 d2 : Date) :
  parsedDate d1 = parsedDate d2 -> d1 = d2.
Proof.
  destruct d1 as [y1 m1 a1], d2 as [y2 m2 a2]. unfold parsedDate. simpl.
  intros Heq.
  apply slash_splits in Heq; try apply dec_slash_free.
  destruct Heq as [Hy Heq].
  apply slash_splits in Heq; try apply dec_slash_free.
  destruct Heq as [Hm Ha].
  apply dec_injective in Hy, Hm, Ha.
  f_equal; lia.
Qed.

(** X12: for a calendar date the three parts of the date string are the year,
    the month counted from 1 and the day, each beginning with a digit other
    than 0, so that none is padded: 5 January 2021 reads 2021/1/5. *)
Theorem parsedDate_unpadded (d : Date) :
  calendar_date d ->
  exists (cy cm cd : ascii) (sy sm sd : string),
    dec (getFullYear d) = String cy sy
    /\ dec (getMonth d + 1) = String cm sm
    /\ dec (getDate d) = String cd sd
    /\ parsedDate d
       = String cy sy +s+ "/" +s+ String cm sm +s+ "/" +s+ String cd sd
    /\ cy <> "0"%char /\ cm <> "0"%char /\ cd <> "0"%char
    /\ 1 <= getMonth d + 1 <= 12.
Proof.
  intros (Hy & Hm & Hd).
  destruct (dec_no_leading_zero (getFullYear d)) as (cy & sy & Ey & Ny);
    [lia |].
  destruct (dec_no_leading_zero (getMonth d + 1)) as (cm & sm & Em & Nm);
    [lia |].
  destruct (dec_no_leading_zero (getDate d)) as (cd & sd & Ed & Nd);
    [lia |].
  exists cy, cm, cd, sy, sm, sd. unfold parsedDate.
  rewrite Ey, Em, Ed. repeat split; auto; lia.
Qed.

Lemma parsedDate_injective_witness :
  {| getFullYear := 2021; getMonth := 0; getDate := 5 |} = today epoch.
Proof.
  apply (parsedDate_injective
           {| getFullYear := 2021; getMonth := 0; getDate := 5 |}
           (today epoch)).
  reflexivity.
Defined.

Lemma parsedDate_unpadded_witness :
  exists (cy cm cd : ascii) (sy sm sd : string),
    dec 2021 = String cy sy
    /\ dec (0 + 1) = String cm sm
    /\ dec 5 = String cd sd
    /\ parsedDate (today epoch)
       = String cy sy +s+ "/" +s+ String cm sm +s+ "/" +s+ String cd sd
    /\ cy <> "0"%char /\ cm <> "0"%char /\ cd <> "0"%char
    /\ 1 <= 0 + 1 <= 12.
Proof.
  apply (parsedDate_unpadded (today epoch)).
  unfold calendar_date. simpl. lia.
Defined.
